(** * AlphaTanks utility scripts: [read_pdf.py] and [serve.py]

    A shallow embedding of the two scripts of the repository and the
    properties of their specification.

    Definitions:
    - [PyStr]     Python strings as sequences of code points, and the
                  UTF-8 codec used by text files opened with
                  [encoding="utf-8"].
    - [Extractor] [read_pdf.py]: the two extraction functions and the
                  script body, over a state made of the file system and
                  the list of observable events.
    - [DevServer] [serve.py]: the request handler class with its
                  overrides of [end_headers] and [log_message], and
                  [start_server], over the listening socket, what the
                  waits for connections bring and when the interrupt
                  comes.

    Properties:
    - [PyStrFacts], [ExtractorProofs], [DevServerProofs]: lemmas about
      the definitions.
    - [ExtractorSpec], [DevServerSpec]: the claims of the specification.
    - [ExtractorMore], [DevServerMore]: further properties. *)

From Stdlib Require Import ZArith Lia String Ascii.
From stdpp Require Import base option list gmap strings pretty.

(* ===================================================================== *)
(** * Python strings and the UTF-8 codec *)
(* ===================================================================== *)

Module PyStr.

(** A Python [str] is a sequence of Unicode code points; a [bytes]
    object is a sequence of octets.  Both are lists of integers here. *)
Abbreviation pystr := (list Z).
Abbreviation bytes := (list Z).

(** A string literal of the source, character by character. *)
Definition py (s : string) : pystr :=
  (λ a : ascii, Z.of_nat (nat_of_ascii a)) <$> list_ascii_of_string s.

(** ["\n"] *)
Definition nl : pystr := [10%Z].

(** [str(n)] for a length, as the f-strings of the script print it. *)
Definition str_of_nat (n : nat) : pystr := py (pretty n).

Local Open Scope Z_scope.

(** Lone surrogates are code points a Python string may hold but that
    UTF-8 refuses. *)
Definition is_surrogate (c : Z) : bool := (0xD800 <=? c) && (c <=? 0xDFFF).

(** The strict UTF-8 encoding of one code point; [None] where Python
    raises [UnicodeEncodeError]. *)
Definition utf8_encode_char (c : Z) : option bytes :=
  if c <? 0 then None
  else if c <? 0x80 then Some [c]
  else if c <? 0x800 then Some [0xC0 + c / 64; 0x80 + c mod 64]
  else if is_surrogate c then None
  else if c <? 0x10000 then
    Some [0xE0 + c / 4096; 0x80 + (c / 64) mod 64; 0x80 + c mod 64]
  else if c <? 0x110000 then
    Some [0xF0 + c / 262144; 0x80 + (c / 4096) mod 64;
          0x80 + (c / 64) mod 64; 0x80 + c mod 64]
  else None.

(** [s.encode("utf-8")] *)
Fixpoint utf8_encode (s : pystr) : option bytes :=
  match s with
  | [] => Some []
  | c :: s' =>
      match utf8_encode_char c, utf8_encode s' with
      | Some b, Some bs => Some (b ++ bs)
      | _, _ => None
      end
  end.

Definition is_cont (b : Z) : bool := (0x80 <=? b) && (b <? 0xC0).

(** [b.decode("utf-8")], strict: what reading the file back in text mode
    yields. *)
Fixpoint utf8_decode (bs : bytes) : option pystr :=
  match bs with
  | [] => Some []
  | b0 :: r0 =>
      if (0 <=? b0) && (b0 <? 0x80) then cons b0 <$> utf8_decode r0
      else if (0xC2 <=? b0) && (b0 <? 0xE0) then
        match r0 with
        | b1 :: r1 =>
            if is_cont b1
            then cons ((b0 - 0xC0) * 64 + (b1 - 0x80)) <$> utf8_decode r1
            else None
        | _ => None
        end
      else if (0xE0 <=? b0) && (b0 <? 0xF0) then
        match r0 with
        | b1 :: b2 :: r2 =>
            let c := (b0 - 0xE0) * 4096 + (b1 - 0x80) * 64 + (b2 - 0x80) in
            if is_cont b1 && is_cont b2 && (0x800 <=? c) && negb (is_surrogate c)
            then cons c <$> utf8_decode r2
            else None
        | _ => None
        end
      else if (0xF0 <=? b0) && (b0 <? 0xF5) then
        match r0 with
        | b1 :: b2 :: b3 :: r3 =>
            let c := (b0 - 0xF0) * 262144 + (b1 - 0x80) * 4096
                     + (b2 - 0x80) * 64 + (b3 - 0x80) in
            if is_cont b1 && is_cont b2 && is_cont b3
               && (0x10000 <=? c) && (c <? 0x110000)
            then cons c <$> utf8_decode r3
            else None
        | _ => None
        end
      else None
  end.

End PyStr.

(* ===================================================================== *)
(** * The extractor: [read_pdf.py] *)
(* ===================================================================== *)

(** The PDF libraries are not part of the repository: what they do on
    a path is given by the surroundings of a run ([env]).  [print] and
    [open(..., "w")] are taken to succeed (a console that accepts any
    text, a writable directory), and line ends are written as they are,
    as on POSIX systems; the write itself fails on a text that UTF-8
    refuses. *)

Module Extractor.
Import PyStr.

(** ** Exceptions and results *)

(** The exception classes that occur; all derive from [Exception], so the
    script's [except Exception] clauses catch each of them. *)
Inductive exc_type :=
  | TypeError            (* [None + "\n"] *)
  | UnicodeEncodeError   (* a text the file's codec refuses *)
  | LibraryError.        (* whatever the PDF libraries and [open] raise *)

(** An exception instance; [exn_text] is [str(e)], what [{e}] prints. *)
Record exn := Exn { exn_type : exc_type; exn_text : pystr }.

Inductive result (A : Type) :=
  | Return (a : A)
  | Raise (e : exn).
Arguments Return {A} a.
Arguments Raise {A} e.

(** ** The PDF libraries *)

Inductive library := Pdfplumber | PyPDF2.

(** What [page.extract_text()] does on a page of an opened document. *)
Inductive page :=
  | PageText (t : pystr)   (* returns the string [t], possibly empty *)
  | PageNone               (* returns [None] *)
  | PageError (e : exn).   (* raises *)

(** What opening a path with a library does: it raises (missing file,
    malformed document), or gives the pages in document order. *)
Inductive pdf :=
  | OpenError (e : exn)
  | Pdf (pages : list page).

(** The surroundings of a run: how each library sees each path, and the
    text of the error the UTF-8 codec raises on a string it refuses. *)
Record env := Env {
  open_pdf : library → pystr → pdf;
  codec_error_text : pystr → pystr
}.

(** ** State: the file system and the observable events *)

Inductive event :=
  | Printed (line : pystr)                   (* [print(line)] *)
  | LibOpen (lib : library) (path : pystr) (* a library is asked to open [path] *)
  | FileOpenW (path : pystr).              (* [open(path, "w", ...)] *)

Record world := World {
  fs : gmap pystr bytes;     (* the files, by path *)
  trace : list event         (* what happened so far, oldest first *)
}.

(** Computations that read and change the world and may raise. *)
Definition M (A : Type) : Type := world → result A * world.

#[global] Instance M_ret : MRet M := λ A a w, (Return a, w).
#[global] Instance M_bind : MBind M := λ A B f m w,
  match m w with
  | (Return a, w') => f a w'
  | (Raise e, w') => (Raise e, w')
  end.

Definition raise {A} (e : exn) : M A := λ w, (Raise e, w).

(** [try: body / except Exception as e: handler e] *)
Definition try_except {A} (body : M A) (handler : exn → M A) : M A := λ w,
  match body w with
  | (Return a, w') => (Return a, w')
  | (Raise e, w') => handler e w'
  end.

Definition emit (ev : event) : M unit := λ w,
  (Return (), {| fs := fs w; trace := trace w ++ [ev] |}).

Definition print (line : pystr) : M unit := emit (Printed line).

(** [for x in xs: acc = body x acc] *)
Fixpoint for_each {A S} (xs : list A) (body : A → S → M S) (acc : S) : M S :=
  match xs with
  | [] => mret acc
  | x :: xs' => acc' ← body x acc; for_each xs' body acc'
  end.

(** [if v:] on a value that is a string or [None] *)
Definition truthy (v : option pystr) : bool :=
  match v with
  | Some (_ :: _) => true
  | _ => false
  end.

(** [v + s] where [s] is a string and [v] a string or [None] *)
Definition add_str (v : option pystr) (s : pystr) : M pystr :=
  match v with
  | Some t => mret (t ++ s)
  | None =>
      raise (Exn TypeError
        (py "unsupported operand type(s) for +: 'NoneType' and 'str'"))
  end.

Section Script.

Variable E : env.

(** [pdfplumber.open(path)] with [.pages], or [open(path, 'rb')] with
    [PyPDF2.PdfReader(file)] and [.pages]. *)
Definition lib_open (lib : library) (path : pystr) : M (list page) :=
  emit (LibOpen lib path);;
  match open_pdf E lib path with
  | OpenError e => raise e
  | Pdf pages => mret pages
  end.

(** [page.extract_text()] *)
Definition extract_text (p : page) : M (option pystr) :=
  match p with
  | PageText t => mret (Some t)
  | PageNone => mret None
  | PageError e => raise e
  end.

(** [open(path, "w", encoding="utf-8")]: the file is created or emptied. *)
Definition open_w (path : pystr) : M unit := λ w,
  (Return (), {| fs := <[path := []]> (fs w);
                 trace := trace w ++ [FileOpenW path] |}).

(** [f.write(s)] on a file opened for writing with [encoding="utf-8"]:
    the encoded text goes after what the file holds since it was opened. *)
Definition file_write (path : pystr) (s : pystr) : M unit := λ w,
  match utf8_encode s with
  | Some bs =>
      (Return (), {| fs := <[path := default [] (fs w !! path) ++ bs]> (fs w);
                     trace := trace w |})
  | None => (Raise (Exn UnicodeEncodeError (codec_error_text E s)), w)
  end.

(** *** The two extraction functions *)

(** The body of the loop of [read_pdf_with_pypdf2]:
    [text += page.extract_text() + "\n"] *)
Definition pypdf2_page (page : page) (text : pystr) : M pystr :=
  t ← extract_text page;
  line ← add_str t nl;
  mret (text ++ line).

Definition read_pdf_with_pypdf2 (file_path : pystr) : M pystr :=
  pages ← lib_open PyPDF2 file_path;
  for_each pages pypdf2_page [].

(** The body of the loop of [read_pdf_with_pdfplumber]:
    [page_text = page.extract_text()], then under [if page_text:],
    [text += page_text + "\n"] *)
Definition pdfplumber_page (page : page) (text : pystr) : M pystr :=
  page_text ← extract_text page;
  if truthy page_text
  then line ← add_str page_text nl; mret (text ++ line)
  else mret text.

Definition read_pdf_with_pdfplumber (file_path : pystr) : M pystr :=
  pages ← lib_open Pdfplumber file_path;
  for_each pages pdfplumber_page [].

(** *** The script body *)

Definition pdf_path : pystr := py "2507.18074v1.pdf".
Definition out_path : pystr := py "asi_arch_paper.txt".

Definition main : M unit :=
  print (py "Reading PDF with pdfplumber...");;
  try_except
    (content ← read_pdf_with_pdfplumber pdf_path;
     print (py "Successfully extracted " ++ str_of_nat (length content)
            ++ py " characters");;
     open_w out_path;;
     file_write out_path content;;
     print (py "Content saved to asi_arch_paper.txt");;
     print (nl ++ py "--- PREVIEW (first 2000 chars) ---");;
     print (take 2000 content))
    (λ e,
     print (py "Error with pdfplumber: " ++ exn_text e);;
     print (py "Trying PyPDF2...");;
     try_except
       (content ← read_pdf_with_pypdf2 pdf_path;
        print (py "Successfully extracted " ++ str_of_nat (length content)
               ++ py " characters with PyPDF2");;
        open_w out_path;;
        file_write out_path content)
       (λ e2, print (py "Error with PyPDF2: " ++ exn_text e2))).

End Script.

(** ** The claims' vocabulary *)

(** A computation returns [a], or raises [e], whatever the state it is run in. *)
Definition returns {A} (m : M A) (a : A) : Prop := ∀ w, (m w).1 = Return a.
Definition raises {A} (m : M A) (e : exn) : Prop := ∀ w, (m w).1 = Raise e.

(** The state after one more event. *)
Definition log (ev : event) (w : world) : world :=
  {| fs := fs w; trace := trace w ++ [ev] |}.

(** The text of a page that has some: what the [if page_text:] guard of
    [read_pdf_with_pdfplumber] lets through. *)
Definition nonempty_text (p : page) : option pystr :=
  match p with
  | PageText (c :: t) => Some (c :: t)
  | _ => None
  end.

Definition nonempty_texts (pages : list page) : list pystr :=
  omap nonempty_text pages.

(** The concatenation of newline-terminated segments. *)
Definition newline_segments (segs : list pystr) : pystr :=
  concat ((λ t, t ++ nl) <$> segs).

(** The number of newline characters of a text. *)
Definition count_nl (text : pystr) : nat :=
  length (filter (λ c, c = 10%Z) text).

Definition raising (p : page) : Prop := ∃ e, p = PageError e.

(** The primary [try] block runs to its end: pdfplumber returns [content]
    and the file's codec accepts it. *)
Definition primary_succeeds (E : env) (content : pystr) : Prop :=
  returns (read_pdf_with_pdfplumber E pdf_path) content
  ∧ is_Some (utf8_encode content).

(** The primary [try] block raises [e]: in the extraction, or in the write. *)
Definition primary_fails (E : env) (e : exn) : Prop :=
  raises (read_pdf_with_pdfplumber E pdf_path) e
  ∨ ∃ content, returns (read_pdf_with_pdfplumber E pdf_path) content
               ∧ utf8_encode content = None
               ∧ e = Exn UnicodeEncodeError (codec_error_text E content).

(** The fallback [try] block is reached and runs to its end. *)
Definition fallback_succeeds (E : env) (content : pystr) : Prop :=
  (∃ e, primary_fails E e)
  ∧ returns (read_pdf_with_pypdf2 E pdf_path) content
  ∧ is_Some (utf8_encode content).

(** ** Sample surroundings

    Concrete documents on which the script is run below. *)

Definition env_of (plumber pypdf2 : pdf) : env :=
  Env (λ lib _, match lib with Pdfplumber => plumber | PyPDF2 => pypdf2 end)
      (λ _, py "'utf-8' codec can't encode characters: surrogates not allowed").

(** An empty file system and nothing observed yet. *)
Definition w0 : world := World ∅ [].

Definition missing_file : exn :=
  Exn LibraryError (py "[Errno 2] No such file or directory: '2507.18074v1.pdf'").

(** Neither library can open the document. *)
Definition env_unreadable : env :=
  env_of (OpenError missing_file) (OpenError missing_file).

(** One page of text, readable by both libraries. *)
Definition env_one_page : env :=
  env_of (Pdf [PageText (py "Hello")]) (Pdf [PageText (py "Hello")]).

(** Two pages, the second without text. *)
Definition env_blank_page : env :=
  env_of (Pdf [PageText (py "a"); PageNone]) (Pdf [PageText (py "a"); PageNone]).

(** pdfplumber fails on the document, PyPDF2 reads its one page. *)
Definition env_fallback_only : env :=
  env_of (OpenError (Exn LibraryError (py "No /Root object! - Is this really a PDF?")))
         (Pdf [PageText (py "x")]).

(** ** Further vocabulary *)

Section Blocks.

Variable E : env.

(** The body of the outer [try] of the script, and its [except] clause. *)
Definition primary_block : M unit :=
  content ← read_pdf_with_pdfplumber E pdf_path;
  print (py "Successfully extracted " ++ str_of_nat (length content)
         ++ py " characters");;
  open_w out_path;;
  file_write E out_path content;;
  print (py "Content saved to asi_arch_paper.txt");;
  print (nl ++ py "--- PREVIEW (first 2000 chars) ---");;
  print (take 2000 content).

Definition fallback_block (e : exn) : M unit :=
  print (py "Error with pdfplumber: " ++ exn_text e);;
  print (py "Trying PyPDF2...");;
  try_except
    (content ← read_pdf_with_pypdf2 E pdf_path;
     print (py "Successfully extracted " ++ str_of_nat (length content)
            ++ py " characters with PyPDF2");;
     open_w out_path;;
     file_write E out_path content)
    (λ e2, print (py "Error with PyPDF2: " ++ exn_text e2)).

End Blocks.

(** What the loop of [read_pdf_with_pypdf2] raises on a page, if it does:
    the page's own exception, or the [TypeError] of [None + "\n"]. *)
Definition pypdf2_page_error (p : page) : option exn :=
  match p with
  | PageText _ => None
  | PageNone =>
      Some (Exn TypeError
              (py "unsupported operand type(s) for +: 'NoneType' and 'str'"))
  | PageError e => Some e
  end.

(** The events of a run that are not in the state it started from. *)
Definition new_events (before after : world) : list event :=
  drop (length (trace before)) (trace after).

(** pdfplumber extracts a lone surrogate (half of a character outside the
    basic plane), which UTF-8 refuses; PyPDF2 cannot open the document. *)
Definition env_unencodable : env :=
  env_of (Pdf [PageText [0xD83D%Z]]) (OpenError missing_file).

(** Three pages, the second with the empty string as its text. *)
Definition env_empty_page : env :=
  env_of (Pdf [PageText (py "a"); PageText []; PageText (py "b")])
         (Pdf [PageText (py "a"); PageText []; PageText (py "b")]).

(** A file system in which the output file already holds something. *)
Definition w_old : world :=
  World {[ out_path := py "old"; py "notes.txt" := py "keep" ]} [].

End Extractor.
(* ===================================================================== *)
(** * The development server: [serve.py] *)
(* ===================================================================== *)

(** What [serve.py] uses of [http.server] and [socketserver] is written
    out after the Python standard library (3.11).  One request is served
    per connection (the protocol of the handler class is HTTP/1.0, so
    [close_connection] stays true and is left out).  The interrupt is
    taken to reach the process once, after the server object exists.
    Clients are taken to read what is sent to them, and standard output
    to accept every line. *)

Module DevServer.
Import PyStr.

(** [PORT = 8000] *)
Definition PORT : Z := 8000.

Definition crlf : pystr := [13; 10]%Z.
Definition str_of_Z (n : Z) : pystr := py (pretty n).

(** ** The [%] operator on strings *)

(** The values given to a format. *)
Inductive pyval :=
  | VStr (s : pystr)
  | VInt (n : Z).

(** [str(v)] *)
Definition str_of (v : pyval) : pystr :=
  match v with
  | VStr s => s
  | VInt n => str_of_Z n
  end.

(** [format % args] for a tuple [args], with the conversions [%s], [%d]
    and [%%]; [None] where Python raises ([TypeError] for arguments that
    do not fit, [ValueError] for a broken format) and for the conversions
    that are not written out here. *)
Fixpoint percent (format : pystr) (args : list pyval) : option pystr :=
  match format with
  | [] => match args with [] => Some [] | _ :: _ => None end
  | c :: rest =>
      if (c =? 37)%Z then
        match rest with
        | [] => None
        | d :: rest' =>
            if (d =? 37)%Z then cons 37%Z <$> percent rest' args
            else if (d =? 115)%Z then
              match args with
              | v :: args' => app (str_of v) <$> percent rest' args'
              | [] => None
              end
            else if (d =? 100)%Z then
              match args with
              | VInt n :: args' => app (str_of_Z n) <$> percent rest' args'
              | _ => None
              end
            else None
        end
      else cons c <$> percent rest args
  end.

(** ** What arrives on a connection *)

(** What reading the header lines of a request gives. *)
Inductive head :=
  | HeadOk
  | LineTooLong (err : pystr)
  | TooManyHeaders (err : pystr).

(** What the handler reads first: nothing (the client closed), a line of
    more than 65536 bytes, or a request line, given with its words
    ([requestline.split()]) and with what follows it. *)
Inductive arrival :=
  | NoLine
  | LongLine
  | Line (requestline : pystr) (words : list pystr) (h : head).

Record connection := Connection {
  client : pystr;      (* [client_address[0]] *)
  sent : arrival
}.

(** What [do_GET] or [do_HEAD] does with a request: it answers with a
    status, headers and the writes of a body, or refuses through
    [send_error]. *)
Inductive answer :=
  | Answer (code : Z) (headers : list (pystr * pystr)) (body : list bytes)
  | Refusal (code : Z) (message : pystr).

(** The behaviour that [serve.py] inherits and does not define:
    the file-serving logic of [SimpleHTTPRequestHandler] for a directory,
    the table of status phrases, the error page, [repr] and [int] on
    strings, and the texts of the [Server] and [Date] headers and of the
    base class's log line. *)
Record inherited := Inherited {
  static_answer : pystr → arrival → answer;
  responses : Z → option (pystr * pystr);
  error_page : Z → pystr → pystr → bytes;
  repr : pystr → pystr;
  parse_int : pystr → option Z;
  version_string : pystr;
  date_time_string : pystr;
  log_date_time_string : pystr;
  escape_control : pystr → pystr
}.

(** ** The request handler *)

(** What a handler does that can be observed, in order. *)
Inductive action :=
  | Log (line : pystr)     (* a line printed on standard output *)
  | Err (text : pystr)     (* a text written to standard error *)
  | Write (data : bytes)   (* [self.wfile.write(data)] *)
  | Crash.                 (* an exception leaves the handler *)

(** The attributes of a handler instance that the methods below use.
    Header texts are Latin-1, so a header line and its bytes are the same
    list. *)
Record handler := Handler {
  client_address : pystr;
  requestline : pystr;
  request_version : pystr;
  command : option pystr;
  headers_buffer : list bytes;   (* [_headers_buffer] *)
  performed : list action        (* what it has done, oldest first *)
}.

(** A handler as it is created for a connection. *)
Definition new_handler (client : pystr) : handler :=
  {| client_address := client; requestline := [];
     request_version := py "HTTP/0.9"; command := None;
     headers_buffer := []; performed := [] |}.

Definition act (a : action) (self : handler) : handler :=
  {| client_address := client_address self;
     requestline := requestline self;
     request_version := request_version self;
     command := command self;
     headers_buffer := headers_buffer self;
     performed := performed self ++ [a] |}.

Definition set_buffer (buffer : list bytes) (self : handler) : handler :=
  {| client_address := client_address self;
     requestline := requestline self;
     request_version := request_version self;
     command := command self;
     headers_buffer := buffer;
     performed := performed self |}.

Definition set_request (line version : pystr) (cmd : option pystr)
    (self : handler) : handler :=
  {| client_address := client_address self;
     requestline := line;
     request_version := version;
     command := cmd;
     headers_buffer := headers_buffer self;
     performed := performed self |}.

(** The status line and a header line, as bytes. *)
Definition status_line (code : Z) (message : pystr) : bytes :=
  py "HTTP/1.0" ++ py " " ++ str_of_Z code ++ py " " ++ message ++ crlf.

Definition header_line (kv : pystr * pystr) : bytes :=
  kv.1 ++ py ": " ++ kv.2 ++ crlf.

(** [self.request_version != 'HTTP/0.9'] *)
Definition has_headers (self : handler) : bool :=
  bool_decide (request_version self ≠ py "HTTP/0.9").

(** [BaseHTTPRequestHandler.send_header] *)
Definition send_header (keyword value : pystr) (self : handler) : handler :=
  if has_headers self
  then set_buffer (headers_buffer self ++ [header_line (keyword, value)]) self
  else self.

(** [BaseHTTPRequestHandler.flush_headers] *)
Definition flush_headers (self : handler) : handler :=
  set_buffer [] (act (Write (concat (headers_buffer self))) self).

(** [BaseHTTPRequestHandler.end_headers], what [super().end_headers()]
    runs. *)
Definition base_end_headers (self : handler) : handler :=
  if has_headers self
  then flush_headers (set_buffer (headers_buffer self ++ [crlf]) self)
  else self.

(** [self.wfile.write(data)] *)
Definition write (data : bytes) (self : handler) : handler :=
  act (Write data) self.

(** A handler class: the methods that calls on [self] dispatch to. *)
Record handler_class := HandlerClass {
  end_headers : handler → handler;
  log_message : pystr → list pyval → handler → handler
}.

(** [BaseHTTPRequestHandler.log_message]: a dated line on standard
    error. *)
Definition base_log_message (L : inherited) (format : pystr)
    (args : list pyval) (self : handler) : handler :=
  match percent format args with
  | Some message =>
      act (Err (client_address self ++ py " - - [" ++ log_date_time_string L
                ++ py "] " ++ escape_control L message ++ nl)) self
  | None => act Crash self
  end.

Definition SimpleHTTPRequestHandler (L : inherited) : handler_class :=
  {| end_headers := base_end_headers; log_message := base_log_message L |}.

(** [MyHTTPRequestHandler.end_headers] *)
Definition MyHTTPRequestHandler_end_headers (self : handler) : handler :=
  let self := send_header (py "Access-Control-Allow-Origin") (py "*") self in
  let self := send_header (py "Access-Control-Allow-Methods")
                          (py "GET, POST, OPTIONS") self in
  let self := send_header (py "Access-Control-Allow-Headers") (py "*") self in
  base_end_headers self.

(** [MyHTTPRequestHandler.log_message]:
    [print(f"<globe> {self.address_string()} - {format % args}")] *)
Definition MyHTTPRequestHandler_log_message (format : pystr)
    (args : list pyval) (self : handler) : handler :=
  match percent format args with
  | Some message =>
      act (Log ([0x1F310%Z] ++ py " " ++ client_address self ++ py " - "
                ++ message)) self
  | None => act Crash self
  end.

Definition MyHTTPRequestHandler : handler_class :=
  {| end_headers := MyHTTPRequestHandler_end_headers;
     log_message := MyHTTPRequestHandler_log_message |}.

(** The three header lines the override adds. *)
Definition cors_lines : list bytes :=
  [ py "Access-Control-Allow-Origin: *" ++ crlf;
    py "Access-Control-Allow-Methods: GET, POST, OPTIONS" ++ crlf;
    py "Access-Control-Allow-Headers: *" ++ crlf ].

(** [s.split(sep)] for a separator of one character *)
Fixpoint split_on (sep : Z) (s : pystr) : list pystr :=
  match s with
  | [] => [[]]
  | c :: s' =>
      if (c =? sep)%Z then [] :: split_on sep s'
      else match split_on sep s' with
           | piece :: pieces => (c :: piece) :: pieces
           | [] => [[c]]
           end
  end.

(** What [parse_request] makes of the last word of a request line of
    three words or more. *)
Inductive version_check :=
  | Accepted
  | Malformed              (* the [ValueError] branch: status 400 *)
  | TooNew (base : pystr). (* version 2.0 or above: status 505 *)

Section Handler.

Variable L : inherited.

(** The version block of [parse_request]: the word must start with
    [HTTP/] and go on with two integers around one dot, below [(2, 0)]. *)
Definition check_version (version : pystr) : version_check :=
  if bool_decide (take 5 version = py "HTTP/") then
    let base_version_number := drop 5 version in
    match split_on 46 base_version_number with
    | [major; minor] =>
        match parse_int L major, parse_int L minor with
        | Some x, Some y =>
            if ((2 <? x) || ((x =? 2) && (0 <=? y)))%Z
            then TooNew base_version_number
            else Accepted
        | _, _ => Malformed
        end
    | _ => Malformed
    end
  else Malformed.

Variable cls : handler_class.

(** [BaseHTTPRequestHandler.log_request], with [size='-'] *)
Definition log_request (code : Z) (self : handler) : handler :=
  log_message cls ([34%Z] ++ py "%s" ++ [34%Z] ++ py " %s %s")
    [VStr (requestline self); VStr (str_of_Z code); VStr (py "-")] self.

(** [BaseHTTPRequestHandler.log_error] *)
Definition log_error (format : pystr) (args : list pyval) (self : handler)
    : handler :=
  log_message cls format args self.

(** The phrase of a status line: the one given, or the short one of the
    table, or none. *)
Definition reason_phrase (code : Z) (message : option pystr) : pystr :=
  match message with
  | Some m => m
  | None => match responses L code with Some r => r.1 | None => [] end
  end.

(** [BaseHTTPRequestHandler.send_response_only], with
    [protocol_version = "HTTP/1.0"] *)
Definition send_response_only (code : Z) (message : option pystr)
    (self : handler) : handler :=
  if has_headers self
  then set_buffer (headers_buffer self
                   ++ [status_line code (reason_phrase code message)]) self
  else self.

(** [BaseHTTPRequestHandler.send_response] *)
Definition send_response (code : Z) (message : option pystr) (self : handler)
    : handler :=
  let self := log_request code self in
  let self := send_response_only code message self in
  let self := send_header (py "Server") (version_string L) self in
  send_header (py "Date") (date_time_string L) self.

(** The message and the explanation of an error reply: those given, or
    those of the table, or [???]. *)
Definition error_message (code : Z) (message : option pystr) : pystr :=
  default (default (py "???", py "???") (responses L code)).1 message.

Definition error_explain (code : Z) (explain : option pystr) : pystr :=
  default (default (py "???", py "???") (responses L code)).2 explain.

(** The page of an error reply; there is none below 200 and for 204, 205
    and 304. *)
Definition error_body (code : Z) (message explain : pystr) : option bytes :=
  if ((200 <=? code)%Z && negb (bool_decide (code ∈ [204; 205; 304]%Z)))
  then Some (error_page L code message explain)
  else None.

(** [BaseHTTPRequestHandler.send_error] *)
Definition send_error (code : Z) (message explain : option pystr)
    (self : handler) : handler :=
  let message := error_message code message in
  let explain := error_explain code explain in
  let self := log_error (py "code %d, message %s") [VInt code; VStr message]
                self in
  let self := send_response code (Some message) self in
  let self := send_header (py "Connection") (py "close") self in
  let body := error_body code message explain in
  let self :=
    match body with
    | Some b =>
        let self := send_header (py "Content-Type")
                      (py "text/html;charset=utf-8") self in
        send_header (py "Content-Length") (str_of_nat (length b)) self
    | None => self
    end in
  let self := end_headers cls self in
  match body with
  | Some (b0 :: b) =>
      if bool_decide (command self ≠ Some (py "HEAD"))
      then write (b0 :: b) self
      else self
  | _ => self
  end.

(** The end of [parse_request]: the header lines. *)
Definition parse_headers (h : head) (self : handler) : bool * handler :=
  match h with
  | HeadOk => (true, self)
  | LineTooLong err =>
      (false, send_error 431 (Some (py "Line too long")) (Some err) self)
  | TooManyHeaders err =>
      (false, send_error 431 (Some (py "Too many headers")) (Some err) self)
  end.

(** [BaseHTTPRequestHandler.parse_request]: whether the request can be
    handled; where it cannot, the error reply has been sent. *)
Definition parse_request (line : pystr) (words : list pystr) (h : head)
    (self : handler) : bool * handler :=
  let self := set_request line (py "HTTP/0.9") None self in
  match words with
  | [] => (false, self)
  | _ :: _ =>
      let version := default [] (last words) in
      let checked :=
        if bool_decide (3 ≤ length words)
        then match check_version version with
             | Accepted =>
                 inr (set_request line version None self)
             | Malformed =>
                 inl (send_error 400
                        (Some (py "Bad request version (" ++ repr L version
                               ++ py ")")) None self)
             | TooNew base =>
                 inl (send_error 505
                        (Some (py "Invalid HTTP version (" ++ base ++ py ")"))
                        None self)
             end
        else inr self in
      match checked with
      | inl self => (false, self)
      | inr self =>
          match words with
          | [cmd; _] =>
              if bool_decide (cmd ≠ py "GET")
              then (false,
                    send_error 400
                      (Some (py "Bad HTTP/0.9 request type (" ++ repr L cmd
                             ++ py ")")) None self)
              else parse_headers h
                     (set_request line (request_version self) (Some cmd) self)
          | [cmd; _; _] =>
              parse_headers h
                (set_request line (request_version self) (Some cmd) self)
          | _ =>
              (false,
               send_error 400
                 (Some (py "Bad request syntax (" ++ repr L line ++ py ")"))
                 None self)
          end
      end
  end.

Variable directory : pystr.

(** [do_GET] and [do_HEAD] of [SimpleHTTPRequestHandler], as far as the
    handler's own methods go. *)
Definition do_method (a : arrival) (self : handler) : handler :=
  match static_answer L directory a with
  | Answer code headers body =>
      let self := send_response code None self in
      let self := foldl (λ self kv, send_header kv.1 kv.2 self) self headers in
      let self := end_headers cls self in
      foldl (λ self data, write data self) self body
  | Refusal code message => send_error code (Some message) None self
  end.

(** [BaseHTTPRequestHandler.handle_one_request]; the class has the
    methods [do_GET] and [do_HEAD] and no other. *)
Definition handle_one_request (a : arrival) (self : handler) : handler :=
  match a with
  | NoLine => self
  | LongLine => send_error 414 None None (set_request [] [] (Some []) self)
  | Line line words h =>
      match parse_request line words h self with
      | (false, self) => self
      | (true, self) =>
          match command self with
          | Some cmd =>
              if bool_decide (cmd ∈ [py "GET"; py "HEAD"])
              then do_method a self
              else send_error 501
                     (Some (py "Unsupported method (" ++ repr L cmd ++ py ")"))
                     None self
          | None => self
          end
      end
  end.

(** What is observed of a handler up to the exception that ends it, if
    one does. *)
Fixpoint until_crash (acts : list action) : list action :=
  match acts with
  | [] => []
  | Crash :: _ => [Crash]
  | a :: acts' => a :: until_crash acts'
  end.

(** Everything a handler of class [cls] does for a connection when
    serving [directory]. *)
Definition handle (c : connection) : list action :=
  until_crash
    (performed (handle_one_request (sent c) (new_handler (client c)))).

End Handler.

(** The bytes written to the connection, the lines printed, and whether
    the handler was ended by an exception. *)
Definition writes (acts : list action) : list bytes :=
  omap (λ a, match a with Write data => Some data | _ => None end) acts.

Definition logs (acts : list action) : list pystr :=
  omap (λ a, match a with Log line => Some line | _ => None end) acts.

Definition crashed (acts : list action) : bool :=
  existsb (λ a, match a with Crash => true | _ => false end) acts.

(** What a handler has done of [acts] when the interrupt reaches it after
    [k] actions and [n] bytes of the next write. *)
Definition interrupted (k n : nat) (acts : list action) : list action :=
  take k acts ++
  match acts !! k, n with
  | Some (Write data), S _ => [Write (take n data)]
  | _, _ => []
  end.

(** ** The server *)

Inductive exc :=
  | KeyboardInterrupt
  | OSError (errno : Z) (strerror : pystr).

(** How a call ends: it returns, an exception leaves it, or it never
    ends: [Waiting] in [select] for connections that do not come,
    [Deadlock] on an event that nobody will set. *)
Inductive outcome :=
  | Done
  | Raised (e : exc)
  | Waiting
  | Deadlock.

Record socket := Socket {
  reuse_addr : bool;               (* [SO_REUSEADDR] *)
  reuse_port : bool;               (* [SO_REUSEPORT] *)
  bound : option (pystr * Z);      (* the address given to [bind] *)
  backlog : option Z;              (* set once it listens *)
  closed : bool
}.

(** The class attributes of a server class that its constructor reads. *)
Record server_class := ServerClass {
  allow_reuse_address : bool;
  allow_reuse_port : bool;
  request_queue_size : Z
}.

(** [socketserver.TCPServer] *)
Definition TCPServer : server_class :=
  {| allow_reuse_address := false; allow_reuse_port := false;
     request_queue_size := 5 |}.

(** [http.server.HTTPServer], which [serve.py] does not use:
    [allow_reuse_address = 1]. *)
Definition HTTPServer : server_class :=
  {| allow_reuse_address := true; allow_reuse_port := false;
     request_queue_size := 5 |}.

Record server := Server {
  server_address : pystr * Z;
  RequestHandlerClass : handler_class;
  sock : socket;
  shutdown_request : bool;   (* [__shutdown_request] *)
  is_shut_down : bool        (* the event [__is_shut_down] is set *)
}.

(** One connection: what arrived on it, the writes that reached the
    client, and whether the handler ran to its end. *)
Record exchange := Exchange {
  ex_connection : connection;
  ex_sent : list bytes;
  ex_complete : bool
}.

(** The process and what surrounds it. *)
Record process := Process {
  cwd : pystr;                 (* the working directory *)
  console : list pystr;        (* the lines printed by the main thread *)
  ports_in_use : gset Z;       (* ports other sockets hold *)
  exchanges : list exchange    (* the connections served, oldest first *)
}.

Definition print (line : pystr) (p : process) : process :=
  {| cwd := cwd p; console := console p ++ [line];
     ports_in_use := ports_in_use p; exchanges := exchanges p |}.

Definition chdir (dir : pystr) (p : process) : process :=
  {| cwd := dir; console := console p;
     ports_in_use := ports_in_use p; exchanges := exchanges p |}.

(** A handler has run on a connection: its lines are on the console and
    the exchange is on record. *)
Definition record_exchange (c : connection) (acts : list action)
    (complete : bool) (p : process) : process :=
  {| cwd := cwd p; console := console p ++ logs acts;
     ports_in_use := ports_in_use p;
     exchanges := exchanges p ++ [Exchange c (writes acts) complete] |}.

Definition set_sock (s : socket) (httpd : server) : server :=
  {| server_address := server_address httpd;
     RequestHandlerClass := RequestHandlerClass httpd;
     sock := s;
     shutdown_request := shutdown_request httpd;
     is_shut_down := is_shut_down httpd |}.

Definition set_flags (request event : bool) (httpd : server) : server :=
  {| server_address := server_address httpd;
     RequestHandlerClass := RequestHandlerClass httpd;
     sock := sock httpd;
     shutdown_request := request;
     is_shut_down := event |}.

(** [socket.getsockname()] on a socket bound to [address]: the wildcard
    host [""] reads back as ["0.0.0.0"]. *)
Definition getsockname (address : pystr * Z) : pystr * Z :=
  (if bool_decide (address.1 = []) then py "0.0.0.0" else address.1, address.2).

(** [TCPServer.server_bind]: the reuse options are set only when the class
    asks for them; [bind] fails on a port that is taken; the address of
    the server becomes what the socket reports. *)
Definition server_bind (c : server_class) (httpd : server) (p : process)
    : exc + server :=
  let s := sock httpd in
  let s := if allow_reuse_address c
           then {| reuse_addr := true; reuse_port := reuse_port s;
                   bound := bound s; backlog := backlog s; closed := closed s |}
           else s in
  let s := if allow_reuse_port c
           then {| reuse_addr := reuse_addr s; reuse_port := true;
                   bound := bound s; backlog := backlog s; closed := closed s |}
           else s in
  if bool_decide ((server_address httpd).2 ∈ ports_in_use p)
  then inl (OSError 98 (py "Address already in use"))
  else inr {| server_address := getsockname (server_address httpd);
              RequestHandlerClass := RequestHandlerClass httpd;
              sock := {| reuse_addr := reuse_addr s; reuse_port := reuse_port s;
                         bound := Some (server_address httpd);
                         backlog := backlog s; closed := closed s |};
              shutdown_request := shutdown_request httpd;
              is_shut_down := is_shut_down httpd |}.

(** [TCPServer.server_activate] *)
Definition server_activate (c : server_class) (httpd : server) : server :=
  let s := sock httpd in
  set_sock {| reuse_addr := reuse_addr s; reuse_port := reuse_port s;
              bound := bound s; backlog := Some (request_queue_size c);
              closed := closed s |} httpd.

(** [TCPServer.server_close] *)
Definition server_close (httpd : server) : server :=
  let s := sock httpd in
  set_sock {| reuse_addr := reuse_addr s; reuse_port := reuse_port s;
              bound := bound s; backlog := backlog s; closed := true |} httpd.

(** [c(server_address, RequestHandlerClass)]: the constructor of a server
    class, which creates the socket, binds it and listens. *)
Definition new_server (c : server_class) (address : pystr * Z)
    (handler : handler_class) (p : process) : exc + server :=
  let httpd :=
    {| server_address := address;
       RequestHandlerClass := handler;
       sock := {| reuse_addr := false; reuse_port := false; bound := None;
                  backlog := None; closed := false |};
       shutdown_request := false;
       is_shut_down := false |} in
  match server_bind c httpd p with
  | inl e => inl e
  | inr httpd => inr (server_activate c httpd)
  end.

(** What one wait in [select] brings. *)
Inductive poll :=
  | Idle      (* the poll interval passes, nothing is ready *)
  | Incoming (c : connection) (sigint : option (nat * nat))
              (* a connection is ready; with [Some (k, n)], the interrupt
                 reaches the process inside its handler, which has done
                 [k] of its actions and, where the next one is a write,
                 has sent [n] bytes of it *)
  | Sigint.   (* the interrupt reaches the process in the loop, outside a
                 handler *)

(** When the interrupt reaches the process, if it does. *)
Inductive schedule :=
  | BannerInterrupt (j : nat)
      (* while [start_server] prints, [j] lines being out: before the [try] *)
  | EntryInterrupt
      (* in the call of [serve_forever], before its own [try] *)
  | Serve (polls : list poll).
      (* in the serving loop, as the polls say, or never *)

(** The lines [start_server] prints once the server exists. *)
Definition banner : list pystr :=
  [ ([0x1F680] ++ py " AlphaTanks Development Server")%Z;
    ([0x1F4E1] ++ py " Serving at http://localhost:" ++ str_of_Z PORT)%Z;
    ([0x1F3AE] ++ py " Open http://localhost:" ++ str_of_Z PORT
     ++ py " in your browser")%Z;
    ([0x23F9; 0xFE0F] ++ py "  Press Ctrl+C to stop the server")%Z;
    replicate 50 45%Z ].

Definition print_all (lines : list pystr) (p : process) : process :=
  foldl (λ p line, print line p) p lines.

Section Serving.

Variable L : inherited.

(** The loop of [BaseServer.serve_forever], with
    [_handle_request_noblock]: a handler that an exception ends is
    reported on standard error and the loop goes on; a
    [KeyboardInterrupt] inside the handler shuts the connection down and
    goes on up. *)
Fixpoint serve_loop (polls : list poll) (httpd : server) (p : process)
    : outcome * process :=
  if shutdown_request httpd then (Done, p)
  else
    match polls with
    | [] => (Waiting, p)
    | Idle :: polls' => serve_loop polls' httpd p
    | Sigint :: _ => (Raised KeyboardInterrupt, p)
    | Incoming c None :: polls' =>
        let acts := handle L (RequestHandlerClass httpd) (cwd p) c in
        serve_loop polls' httpd (record_exchange c acts (negb (crashed acts)) p)
    | Incoming c (Some (k, n)) :: _ =>
        let acts := handle L (RequestHandlerClass httpd) (cwd p) c in
        (Raised KeyboardInterrupt,
         record_exchange c (interrupted k n acts) false p)
    end.

(** [BaseServer.serve_forever]: the event is cleared; then, under [try],
    the loop runs, and on the way out ([finally]) the request flag is
    reset and the event set.  An interrupt on entry comes before the
    [try]. *)
Definition serve_forever (on_entry : bool) (polls : list poll) (httpd : server)
    (p : process) : outcome * server * process :=
  let httpd := set_flags (shutdown_request httpd) false httpd in
  if on_entry then (Raised KeyboardInterrupt, httpd, p)
  else
    match serve_loop polls httpd p with
    | (Waiting, p) => (Waiting, httpd, p)
    | (o, p) => (o, set_flags false true httpd, p)
    end.

(** [BaseServer.shutdown]: sets the request flag and waits for the event. *)
Definition shutdown (httpd : server) : outcome * server :=
  let httpd := set_flags true (is_shut_down httpd) httpd in
  (if is_shut_down httpd then Done else Deadlock, httpd).

(** The [try] statement of [start_server]. *)
Definition serve_until_interrupt (on_entry : bool) (polls : list poll)
    (httpd : server) (p : process) : outcome * option server * process :=
  match serve_forever on_entry polls httpd p with
  | (Raised KeyboardInterrupt, httpd, p) =>
      let p := print (nl ++ [0x1F6D1] ++ py " Server stopped")%Z p in
      match shutdown httpd with
      | (Done, httpd) => (Done, Some (server_close httpd), p)
      | (o, httpd) => (o, Some httpd, p)
      end
  | (Waiting, httpd, p) => (Waiting, Some httpd, p)
  | (o, httpd, p) => (o, Some (server_close httpd), p)
  end.

(** [start_server()].  The server object is returned along with the
    outcome, when it was created; leaving the [with] block closes it. *)
Definition start_server (s : schedule) (p : process)
    : outcome * option server * process :=
  match new_server TCPServer ([], PORT) MyHTTPRequestHandler p with
  | inl e => (Raised e, None, p)
  | inr httpd =>
      match s with
      | BannerInterrupt j =>
          (Raised KeyboardInterrupt, Some (server_close httpd),
           print_all (take j banner) p)
      | EntryInterrupt =>
          serve_until_interrupt true [] httpd (print_all banner p)
      | Serve polls =>
          serve_until_interrupt false polls httpd (print_all banner p)
      end
  end.

(** The script as run from the file in [script_dir]: the import-time
    [os.chdir(os.path.dirname(os.path.abspath(__file__)))], then
    [start_server()].  (The browser thread only opens a URL and prints;
    it is left out.) *)
Definition run_script (script_dir : pystr) (s : schedule) (p : process)
    : outcome * option server * process :=
  start_server s (chdir script_dir p).

End Serving.

(** ** The claims' vocabulary *)

(** Whether a request gets an answer with a status line and headers: its
    line has three words or more, the last an accepted version other than
    the very string [HTTP/0.9].  (An over-long first line does too.) *)
Definition answered_with_headers (L : inherited) (a : arrival) : bool :=
  match a with
  | NoLine => false
  | LongLine => true
  | Line _ words _ =>
      bool_decide (3 ≤ length words)
      && match check_version L (default [] (last words)) with
         | Accepted => bool_decide (default [] (last words) ≠ py "HTTP/0.9")
         | _ => false
         end
  end.

(** Whether a request reaches [do_GET] or [do_HEAD]: [GET] and a path, or
    a method of the two, a path and an accepted version, and headers that
    parse. *)
Definition reaches_method (L : inherited) (a : arrival) : bool :=
  match a with
  | Line _ [cmd; _] HeadOk => bool_decide (cmd = py "GET")
  | Line _ [cmd; _; version] HeadOk =>
      bool_decide (cmd ∈ [py "GET"; py "HEAD"])
      && match check_version L version with Accepted => true | _ => false end
  | _ => false
  end.

(** The request line and the method of a request. *)
Definition line_of (a : arrival) : pystr :=
  match a with
  | Line line _ _ => line
  | _ => []
  end.

Definition command_of (a : arrival) : option pystr :=
  match a with
  | Line _ (cmd :: _) _ => Some cmd
  | _ => None
  end.

(** The messages that [log_request] and [send_error] hand to
    [log_message]. *)
Definition request_logged (line : pystr) (code : Z) : pystr :=
  [34%Z] ++ line ++ [34%Z] ++ py " " ++ str_of_Z code ++ py " -".

Definition error_logged (code : Z) (message : pystr) : pystr :=
  py "code " ++ str_of_Z code ++ py ", message " ++ message.

(** The header lines of an error reply between the [Date] header and
    the call of [end_headers], and the write of its page. *)
Definition error_headers (body : option bytes) : list bytes :=
  header_line (py "Connection", py "close")
  :: match body with
     | Some b => [ header_line (py "Content-Type", py "text/html;charset=utf-8");
                   header_line (py "Content-Length", str_of_nat (length b)) ]
     | None => []
     end.

(** The status line and the two headers that [send_response] sends. *)
Definition response_lines (L : inherited) (code : Z) (message : pystr)
    : list bytes :=
  [ status_line code message;
    header_line (py "Server", version_string L);
    header_line (py "Date", date_time_string L) ].

Definition error_sent (body : option bytes) (cmd : option pystr) : list bytes :=
  match body with
  | Some (b0 :: b) =>
      if bool_decide (cmd ≠ Some (py "HEAD")) then [b0 :: b] else []
  | _ => []
  end.

(** The handler once it has done [acts] more, its header buffer being
    [buffer]. *)
Definition after (buffer : list bytes) (acts : list action) (self : handler)
    : handler :=
  {| client_address := client_address self;
     requestline := requestline self;
     request_version := request_version self;
     command := command self;
     headers_buffer := buffer;
     performed := performed self ++ acts |}.

(** A handler class whose [end_headers] puts the lines [extra] between
    the headers sent and the blank line, and whose [log_message] gives
    the formatted message to [note]. *)
Definition class_adds (cls : handler_class) (extra : list bytes)
    (note : pystr → pystr → action) : Prop :=
  (∀ self, end_headers cls self
           = if has_headers self
             then after [] [Write (concat (headers_buffer self ++ extra
                                           ++ [crlf]))] self
             else self)
  ∧ (∀ format args self,
       log_message cls format args self
       = act match percent format args with
             | Some message => note (client_address self) message
             | None => Crash
             end self)
  ∧ (∀ client message, writes [note client message] = []
                       ∧ crashed [note client message] = false).

(** The line that the override of [log_message] prints, and the text the
    base class writes to standard error. *)
Definition printed_line (client message : pystr) : pystr :=
  [0x1F310%Z] ++ py " " ++ client ++ py " - " ++ message.

Definition stderr_text (L : inherited) (client message : pystr) : pystr :=
  client ++ py " - - [" ++ log_date_time_string L ++ py "] "
  ++ escape_control L message ++ nl.

(** A poll at which the interrupt is observed. *)
Definition interrupts (x : poll) : bool :=
  match x with
  | Sigint | Incoming _ (Some _) => true
  | Idle | Incoming _ None => false
  end.


(** What a request that reaches [do_GET] or [do_HEAD] gets when it is
    answered without headers: the body of the answer, or the page of the
    refusal. *)
Definition body_only (L : inherited) (directory : pystr) (a : arrival)
    : list bytes :=
  match static_answer L directory a with
  | Answer _ _ body => body
  | Refusal code message =>
      error_sent (error_body L code message (error_explain L code None))
                 (command_of a)
  end.

(** The header block of a request that reaches [do_GET] or [do_HEAD] and
    is answered with headers by a class that adds the lines [extra]. *)
Definition header_block (L : inherited) (directory : pystr) (a : arrival)
    (extra : list bytes) : bytes :=
  match static_answer L directory a with
  | Answer code hs _ =>
      concat (response_lines L code (reason_phrase L code None)
              ++ (header_line <$> hs) ++ extra ++ [crlf])
  | Refusal code message =>
      concat (response_lines L code message
              ++ error_headers
                   (error_body L code message (error_explain L code None))
              ++ extra ++ [crlf])
  end.

(** The connections that the polls have accepted, each with whether its
    handler ran to its end: nothing is accepted once the interrupt has
    been observed. *)
Fixpoint accepted (polls : list poll) : list (connection * bool) :=
  match polls with
  | [] => []
  | Idle :: polls' => accepted polls'
  | Sigint :: _ => []
  | Incoming c None :: polls' => (c, true) :: accepted polls'
  | Incoming c (Some _) :: _ => [(c, false)]
  end.

(** What the polls leave behind when every connection, up to the first
    interrupt, is handled by a [MyHTTPRequestHandler] serving
    [directory]: the exchanges, and the lines printed. *)
Fixpoint exchanges_of (L : inherited) (directory : pystr) (polls : list poll)
    : list exchange :=
  match polls with
  | [] => []
  | Idle :: polls' => exchanges_of L directory polls'
  | Sigint :: _ => []
  | Incoming c None :: polls' =>
      Exchange c (writes (handle L MyHTTPRequestHandler directory c)) true
      :: exchanges_of L directory polls'
  | Incoming c (Some (k, n)) :: _ =>
      [Exchange c
         (writes (interrupted k n (handle L MyHTTPRequestHandler directory c)))
         false]
  end.

Fixpoint lines_of (L : inherited) (directory : pystr) (polls : list poll)
    : list pystr :=
  match polls with
  | [] => []
  | Idle :: polls' => lines_of L directory polls'
  | Sigint :: _ => []
  | Incoming c None :: polls' =>
      logs (handle L MyHTTPRequestHandler directory c)
      ++ lines_of L directory polls'
  | Incoming c (Some (k, n)) :: _ =>
      logs (interrupted k n (handle L MyHTTPRequestHandler directory c))
  end.

(** The same for a schedule: nothing is accepted when the interrupt comes
    before the loop. *)
Definition polls_of (s : schedule) : list poll :=
  match s with
  | Serve polls => polls
  | _ => []
  end.

(** The process after more lines and more exchanges. *)
Definition after_serving (lines : list pystr) (es : list exchange)
    (p : process) : process :=
  {| cwd := cwd p; console := console p ++ lines;
     ports_in_use := ports_in_use p; exchanges := exchanges p ++ es |}.

(** The last line [start_server] prints. *)
Definition stop_line : pystr := (nl ++ [0x1F6D1] ++ py " Server stopped")%Z.

(** The server object of the script once it is created and while it
    serves; when [start_server] has returned; when an interrupt during
    the first prints has left the [with] block; and when [shutdown] waits
    after an interrupt on entry of [serve_forever]. *)
Definition server_with (request event is_closed : bool) : server :=
  {| server_address := (py "0.0.0.0", PORT);
     RequestHandlerClass := MyHTTPRequestHandler;
     sock := {| reuse_addr := false; reuse_port := false;
                bound := Some ([], PORT); backlog := Some 5%Z;
                closed := is_closed |};
     shutdown_request := request;
     is_shut_down := event |}.

Definition serving_server : server := server_with false false false.
Definition stopped_server : server := server_with true true true.
Definition closed_server : server := server_with false false true.
Definition blocked_server : server := server_with true false false.

(** ** Sample surroundings *)

(** Decimal digits only, for the sample library's [int]. *)
Definition sample_int (s : pystr) : option Z :=
  match s with
  | [] => None
  | _ :: _ =>
      if forallb (λ c, (48 <=? c) && (c <=? 57))%Z s
      then Some (foldl (λ n c, 10 * n + (c - 48))%Z 0%Z s)
      else None
  end.

(** A library that serves one file, [/index.html]. *)
Definition sample_library : inherited :=
  {| static_answer := λ dir a,
       match a with
       | Line _ (cmd :: path :: _) _ =>
           if bool_decide (path = py "/index.html")
           then Answer 200
                  [(py "Content-type", py "text/html");
                   (py "Content-Length", py "5")]
                  (if bool_decide (cmd = py "HEAD") then [] else [py "<html"])
           else Refusal 404 (py "File not found")
       | _ => Refusal 404 (py "File not found")
       end;
     responses := λ code,
       if (code =? 200)%Z then Some (py "OK", py "Request fulfilled")
       else if (code =? 404)%Z then Some (py "Not Found", py "Nothing matches")
       else if (code =? 400)%Z then Some (py "Bad Request", py "Bad request syntax")
       else if (code =? 505)%Z
       then Some (py "HTTP Version Not Supported", py "Cannot fulfill request")
       else None;
     error_page := λ code message explain,
       py "<h1>" ++ str_of_Z code ++ py " " ++ message ++ py "</h1>";
     repr := λ s, py "'" ++ s ++ py "'";
     parse_int := sample_int;
     version_string := py "SimpleHTTP/0.6 Python/3.11.2";
     date_time_string := py "Tue, 03 Nov 2026 12:00:00 GMT";
     log_date_time_string := py "03/Nov/2026 12:00:00";
     escape_control := λ s, s |}.

(** A browser on the same machine asking for [path] with HTTP/1.1, and
    the same request without a version. *)
Definition get (path : pystr) : connection :=
  Connection (py "127.0.0.1")
    (Line (py "GET " ++ path ++ py " HTTP/1.1")
          [py "GET"; path; py "HTTP/1.1"] HeadOk).

Definition get_simple (path : pystr) : connection :=
  Connection (py "127.0.0.1")
    (Line (py "GET " ++ path) [py "GET"; path] HeadOk).

Definition fresh_process : process :=
  {| cwd := py "/home/user"; console := []; ports_in_use := ∅; exchanges := [] |}.

(** A process beside which another program already holds port 8000. *)
Definition crowded_process : process :=
  {| cwd := py "/home/user"; console := []; ports_in_use := {[ 8000%Z ]};
     exchanges := [] |}.

End DevServer.
(* ===================================================================== *)
(** * Facts about the UTF-8 codec *)
(* ===================================================================== *)

Module PyStrFacts.
Import PyStr.
Local Open Scope Z_scope.

Ltac bool_to_Z :=
  repeat match goal with
  | H : (_ <? _) = true |- _ => apply Z.ltb_lt in H
  | H : (_ <? _) = false |- _ => apply Z.ltb_ge in H
  | H : (_ <=? _) = true |- _ => apply Z.leb_le in H
  | H : (_ <=? _) = false |- _ => apply Z.leb_gt in H
  | H : (_ && _) = true |- _ => apply andb_true_iff in H; destruct H
  | H : (_ && _) = false |- _ => apply andb_false_iff in H; destruct H
  end.

Ltac Z_test_true :=
  repeat first
    [ rewrite (proj2 (Z.ltb_lt _ _)) by (Z.to_euclidean_division_equations; lia)
    | rewrite (proj2 (Z.leb_le _ _)) by (Z.to_euclidean_division_equations; lia)
    | rewrite (proj2 (Z.ltb_ge _ _)) by (Z.to_euclidean_division_equations; lia)
    | rewrite (proj2 (Z.leb_gt _ _)) by (Z.to_euclidean_division_equations; lia) ];
  cbn [andb negb].

Lemma utf8_decode_encode_char (c : Z) (b rest : bytes) :
  utf8_encode_char c = Some b →
  utf8_decode (b ++ rest) = cons c <$> utf8_decode rest.
Proof.
  unfold utf8_encode_char, is_surrogate.
  destruct (c <? 0) eqn:H0; [done|].
  destruct (c <? 0x80) eqn:H1.
  { intros [= <-]. bool_to_Z. cbn [app utf8_decode]. by Z_test_true. }
  destruct (c <? 0x800) eqn:H2.
  { intros [= <-]. bool_to_Z. cbn [app utf8_decode]. unfold is_cont.
    Z_test_true. do 2 f_equal. Z.to_euclidean_division_equations; lia. }
  destruct ((0xD800 <=? c) && (c <=? 0xDFFF)) eqn:H3; [done|].
  destruct (c <? 0x10000) eqn:H4.
  { intros [= <-]. cbn [app utf8_decode]. unfold is_cont, is_surrogate.
    assert (Hc : (0xE0 + c / 4096 - 0xE0) * 4096
                 + (0x80 + (c / 64) mod 64 - 0x80) * 64
                 + (0x80 + c mod 64 - 0x80) = c)
      by (Z.to_euclidean_division_equations; lia).
    rewrite Hc, H3. apply Z.ltb_ge in H0, H1, H2. apply Z.ltb_lt in H4.
    Z_test_true. done. }
  destruct (c <? 0x110000) eqn:H5; [|done].
  intros [= <-]. cbn [app utf8_decode]. unfold is_cont.
  assert (Hc : (0xF0 + c / 262144 - 0xF0) * 262144
               + (0x80 + (c / 4096) mod 64 - 0x80) * 4096
               + (0x80 + (c / 64) mod 64 - 0x80) * 64
               + (0x80 + c mod 64 - 0x80) = c)
    by (Z.to_euclidean_division_equations; lia).
  rewrite Hc. apply Z.ltb_ge in H0, H1, H2, H4. apply Z.ltb_lt in H5.
  Z_test_true. done.
Qed.

(** Decoding what was encoded gives the text back. *)
Lemma utf8_decode_encode (s : pystr) (bs : bytes) :
  utf8_encode s = Some bs → utf8_decode bs = Some s.
Proof.
  revert bs. induction s as [|c s IH]; intros bs; cbn [utf8_encode].
  - by intros [= <-].
  - destruct (utf8_encode_char c) as [b|] eqn:Hc; [|done].
    destruct (utf8_encode s) as [bs'|] eqn:Hs; [|done].
    intros [= <-]. rewrite (utf8_decode_encode_char _ _ _ Hc).
    by rewrite (IH _ eq_refl).
Qed.

End PyStrFacts.

(* ===================================================================== *)
(** * Properties of the extractor *)
(* ===================================================================== *)

Module ExtractorProofs.
Import PyStr PyStrFacts Extractor.

Ltac unfold_M := unfold mbind, M_bind, mret, M_ret, raise in *.

(** ** Segments and newlines *)

Lemma newline_segments_cons (t : pystr) (segs : list pystr) :
  newline_segments (t :: segs) = t ++ nl ++ newline_segments segs.
Proof. unfold newline_segments. cbn [fmap list_fmap concat]. by rewrite <- app_assoc. Qed.

Lemma count_nl_app (s t : pystr) : count_nl (s ++ t) = count_nl s + count_nl t.
Proof. unfold count_nl. by rewrite filter_app, length_app. Qed.

Lemma count_nl_segments (segs : list pystr) :
  count_nl (newline_segments segs) = length segs + sum_list (count_nl <$> segs).
Proof.
  induction segs as [|t segs IH]; [done|].
  rewrite newline_segments_cons, !count_nl_app, IH.
  change (count_nl nl) with 1. cbn [fmap list_fmap sum_list length]. unfold id. lia.
Qed.

Lemma newline_segments_shape (segs : list pystr) :
  newline_segments segs = [] ∨ ∃ pre, newline_segments segs = pre ++ nl.
Proof.
  induction segs as [|t segs IH]; [by left|]. right.
  rewrite newline_segments_cons.
  destruct IH as [-> | [pre ->]].
  - exists t. by rewrite app_nil_r.
  - exists (t ++ nl ++ pre). by rewrite <- !app_assoc.
Qed.

Lemma nonempty_texts_length (pages : list page) :
  length (nonempty_texts pages) ≤ length pages.
Proof.
  induction pages as [|p pages IH]; [done|].
  unfold nonempty_texts in *. cbn [omap list_omap].
  destruct (nonempty_text p); cbn [length]; lia.
Qed.

(** ** The loops of the two extraction functions *)

Lemma for_each_cons {A S} (x : A) (xs : list A) (body : A → S → M S) (acc : S)
    (w : world) :
  for_each (x :: xs) body acc w
  = match body x acc w with
    | (Return acc', w') => for_each xs body acc' w'
    | (Raise e, w') => (Raise e, w')
    end.
Proof. reflexivity. Qed.

Lemma pdfplumber_page_run (p : page) (text : pystr) (w : world) :
  pdfplumber_page p text w
  = match p with
    | PageText (c :: t) => (Return (text ++ (c :: t) ++ nl), w)
    | PageText [] | PageNone => (Return text, w)
    | PageError e => (Raise e, w)
    end.
Proof. by destruct p as [[|c t]| |e]. Qed.

Lemma pypdf2_page_run (p : page) (text : pystr) (w : world) :
  pypdf2_page p text w
  = match p with
    | PageText t => (Return (text ++ t ++ nl), w)
    | PageNone =>
        (Raise (Exn TypeError
           (py "unsupported operand type(s) for +: 'NoneType' and 'str'")), w)
    | PageError e => (Raise e, w)
    end.
Proof. by destruct p as [t| |e]. Qed.

Lemma nonempty_texts_cons (p : page) (pages : list page) :
  nonempty_texts (p :: pages)
  = match nonempty_text p with
    | Some t => t :: nonempty_texts pages
    | None => nonempty_texts pages
    end.
Proof. reflexivity. Qed.

Lemma pdfplumber_loop (pages : list page) (acc : pystr) (w : world) :
  Forall (λ p, ¬ raising p) pages →
  for_each pages pdfplumber_page acc w
  = (Return (acc ++ newline_segments (nonempty_texts pages)), w).
Proof.
  intros Hok. revert acc. induction Hok as [|p pages Hp _ IH]; intros acc.
  - cbn. unfold_M. by rewrite app_nil_r.
  - rewrite for_each_cons, pdfplumber_page_run, nonempty_texts_cons.
    destruct p as [[|c t]| |e]; cbn [nonempty_text]; try apply IH.
    + rewrite IH, newline_segments_cons. by rewrite <- !app_assoc.
    + destruct Hp. by exists e.
Qed.

Lemma pdfplumber_loop_raise (pre post : list page) (e : exn) (acc : pystr) (w : world) :
  Forall (λ p, ¬ raising p) pre →
  for_each (pre ++ PageError e :: post) pdfplumber_page acc w = (Raise e, w).
Proof.
  intros Hok. revert acc. induction Hok as [|p pre Hp _ IH]; intros acc.
  - done.
  - cbn [app]. rewrite for_each_cons, pdfplumber_page_run.
    destruct p as [[|c t]| |e']; try apply IH.
    destruct Hp. by exists e'.
Qed.

(** The loop of [read_pdf_with_pdfplumber] returns only when no page
    raises. *)
Lemma pdfplumber_loop_returns_inv (pages : list page) (acc text : pystr)
    (w : world) :
  (for_each pages pdfplumber_page acc w).1 = Return text →
  Forall (λ p, ¬ raising p) pages.
Proof.
  revert acc. induction pages as [|a pages IH]; intros acc Hret; [done|].
  rewrite for_each_cons, pdfplumber_page_run in Hret.
  destruct a as [[|c t]| |e]; [| | |done];
    (constructor; [by intros [? ?] | by eapply IH]).
Qed.

(** Neither loop touches the state. *)
Lemma pdfplumber_loop_stateless (pages : list page) (acc : pystr) :
  ∃ r, ∀ w, for_each pages pdfplumber_page acc w = (r, w).
Proof.
  revert acc. induction pages as [|p pages IH]; intros acc.
  - by exists (Return acc).
  - destruct p as [[|c t]| |e].
    + destruct (IH acc) as [r Hr]. exists r. intros w.
      by rewrite for_each_cons, pdfplumber_page_run.
    + destruct (IH (acc ++ (c :: t) ++ nl)) as [r Hr]. exists r. intros w.
      by rewrite for_each_cons, pdfplumber_page_run.
    + destruct (IH acc) as [r Hr]. exists r. intros w.
      by rewrite for_each_cons, pdfplumber_page_run.
    + by exists (Raise e).
Qed.

Lemma pypdf2_loop_stateless (pages : list page) (acc : pystr) :
  ∃ r, ∀ w, for_each pages pypdf2_page acc w = (r, w).
Proof.
  revert acc. induction pages as [|p pages IH]; intros acc.
  - by exists (Return acc).
  - destruct p as [t| |e].
    + destruct (IH (acc ++ t ++ nl)) as [r Hr]. exists r. intros w.
      by rewrite for_each_cons, pypdf2_page_run.
    + by eexists.
    + by exists (Raise e).
Qed.

(** A page without text stops [read_pdf_with_pypdf2] with a [TypeError]. *)
Lemma pypdf2_loop_none (pre post : list page) (acc : pystr) (w : world) :
  Forall (λ p, ∃ t, p = PageText t) pre →
  for_each (pre ++ PageNone :: post) pypdf2_page acc w
  = (Raise (Exn TypeError
       (py "unsupported operand type(s) for +: 'NoneType' and 'str'")), w).
Proof.
  intros Hok. revert acc. induction Hok as [|p pre [t ->] _ IH]; intros acc.
  - done.
  - cbn [app]. rewrite for_each_cons, pypdf2_page_run. apply IH.
Qed.

(** When every page has text, [read_pdf_with_pypdf2]'s loop appends one
    segment per page. *)
Lemma pypdf2_loop_texts (texts : list pystr) (acc : pystr) (w : world) :
  for_each (PageText <$> texts) pypdf2_page acc w
  = (Return (acc ++ newline_segments texts), w).
Proof.
  revert acc. induction texts as [|t texts IH]; intros acc.
  - cbn. unfold_M. by rewrite app_nil_r.
  - cbn [fmap list_fmap]. rewrite for_each_cons, pypdf2_page_run.
    change (list_fmap pystr page PageText texts) with (PageText <$> texts).
    rewrite IH, newline_segments_cons. by rewrite <- !app_assoc.
Qed.

(** ** The extraction functions as a whole *)

Section Reads.
Variable E : env.

Lemma read_pdfplumber_run (p : pystr) :
  ∃ r, ∀ w, read_pdf_with_pdfplumber E p w = (r, log (LibOpen Pdfplumber p) w).
Proof.
  unfold read_pdf_with_pdfplumber, lib_open, emit. unfold_M.
  destruct (open_pdf E Pdfplumber p) as [e|pages].
  - by exists (Raise e).
  - destruct (pdfplumber_loop_stateless pages []) as [r Hr].
    exists r. intros w. cbn. by rewrite Hr.
Qed.

Lemma read_pypdf2_run (p : pystr) :
  ∃ r, ∀ w, read_pdf_with_pypdf2 E p w = (r, log (LibOpen PyPDF2 p) w).
Proof.
  unfold read_pdf_with_pypdf2, lib_open, emit. unfold_M.
  destruct (open_pdf E PyPDF2 p) as [e|pages].
  - by exists (Raise e).
  - destruct (pypdf2_loop_stateless pages []) as [r Hr].
    exists r. intros w. cbn. by rewrite Hr.
Qed.

Lemma pdfplumber_returns_run (p c : pystr) (w : world) :
  returns (read_pdf_with_pdfplumber E p) c →
  read_pdf_with_pdfplumber E p w = (Return c, log (LibOpen Pdfplumber p) w).
Proof.
  intros H. destruct (read_pdfplumber_run p) as [r Hr].
  specialize (H w). rewrite Hr in H |- *. cbn in H. by subst.
Qed.

Lemma pdfplumber_raises_run (p : pystr) (e : exn) (w : world) :
  raises (read_pdf_with_pdfplumber E p) e →
  read_pdf_with_pdfplumber E p w = (Raise e, log (LibOpen Pdfplumber p) w).
Proof.
  intros H. destruct (read_pdfplumber_run p) as [r Hr].
  specialize (H w). rewrite Hr in H |- *. cbn in H. by subst.
Qed.

Lemma pypdf2_returns_run (p c : pystr) (w : world) :
  returns (read_pdf_with_pypdf2 E p) c →
  read_pdf_with_pypdf2 E p w = (Return c, log (LibOpen PyPDF2 p) w).
Proof.
  intros H. destruct (read_pypdf2_run p) as [r Hr].
  specialize (H w). rewrite Hr in H |- *. cbn in H. by subst.
Qed.

Lemma pypdf2_raises_run (p : pystr) (e : exn) (w : world) :
  raises (read_pdf_with_pypdf2 E p) e →
  read_pdf_with_pypdf2 E p w = (Raise e, log (LibOpen PyPDF2 p) w).
Proof.
  intros H. destruct (read_pypdf2_run p) as [r Hr].
  specialize (H w). rewrite Hr in H |- *. cbn in H. by subst.
Qed.

(** When the document opens and no page raises, pdfplumber's function
    returns the segments of the pages that have text. *)
Lemma pdfplumber_opened (p : pystr) (pages : list page) :
  open_pdf E Pdfplumber p = Pdf pages →
  Forall (λ p, ¬ raising p) pages →
  returns (read_pdf_with_pdfplumber E p) (newline_segments (nonempty_texts pages)).
Proof.
  intros Hopen Hok w.
  unfold read_pdf_with_pdfplumber, lib_open, emit. unfold_M. rewrite Hopen.
  by rewrite pdfplumber_loop.
Qed.

(** It returns in no other case. *)
Lemma pdfplumber_returns_inv (p text : pystr) (w : world) :
  (read_pdf_with_pdfplumber E p w).1 = Return text →
  ∃ pages, open_pdf E Pdfplumber p = Pdf pages
           ∧ Forall (λ p, ¬ raising p) pages
           ∧ text = newline_segments (nonempty_texts pages).
Proof.
  unfold read_pdf_with_pdfplumber, lib_open, emit. unfold_M.
  destruct (open_pdf E Pdfplumber p) as [e|pages] eqn:Hopen; [done|].
  intros Hret. exists pages. split; [done|].
  pose proof (pdfplumber_loop_returns_inv _ _ _ _ Hret) as Hok.
  split; [done|].
  rewrite pdfplumber_loop in Hret by done. by injection Hret.
Qed.

End Reads.

(** ** The script body *)

Section Main.
Variable E : env.

Ltac run_main :=
  unfold main, try_except, print, emit, open_w, file_write; unfold_M;
  cbn [fs trace fst snd].

Ltac same_world :=
  unfold log; cbn [fs trace];
  rewrite ?lookup_insert_eq; cbn [default app];
  rewrite ?insert_insert_eq, <- ?app_assoc; cbn [app]; reflexivity.

(** The primary block runs to its end. *)
Lemma main_primary_ok (c : pystr) (bs : bytes) (w : world) :
  returns (read_pdf_with_pdfplumber E pdf_path) c →
  utf8_encode c = Some bs →
  main E w = (Return (),
    {| fs := <[out_path := bs]> (fs w);
       trace := trace w ++
         [ Printed (py "Reading PDF with pdfplumber...");
           LibOpen Pdfplumber pdf_path;
           Printed (py "Successfully extracted " ++ str_of_nat (length c)
                  ++ py " characters");
           FileOpenW out_path;
           Printed (py "Content saved to asi_arch_paper.txt");
           Printed (nl ++ py "--- PREVIEW (first 2000 chars) ---");
           Printed (take 2000 c) ] |}).
Proof.
  intros Hret Henc. run_main.
  rewrite (pdfplumber_returns_run E _ c) by done.
  cbn [fs trace log]. rewrite Henc. same_world.
Qed.

(** Both extraction functions raise. *)
Lemma main_both_raise (e1 e2 : exn) (w : world) :
  raises (read_pdf_with_pdfplumber E pdf_path) e1 →
  raises (read_pdf_with_pypdf2 E pdf_path) e2 →
  main E w = (Return (),
    {| fs := fs w;
       trace := trace w ++
         [ Printed (py "Reading PDF with pdfplumber...");
           LibOpen Pdfplumber pdf_path;
           Printed (py "Error with pdfplumber: " ++ exn_text e1);
           Printed (py "Trying PyPDF2...");
           LibOpen PyPDF2 pdf_path;
           Printed (py "Error with PyPDF2: " ++ exn_text e2) ] |}).
Proof.
  intros H1 H2. run_main.
  rewrite (pdfplumber_raises_run E _ e1) by done.
  rewrite (pypdf2_raises_run E _ e2) by done.
  same_world.
Qed.

(** pdfplumber raises and the fallback block runs to its end. *)
Lemma main_fallback_ok (e1 : exn) (c : pystr) (bs : bytes) (w : world) :
  raises (read_pdf_with_pdfplumber E pdf_path) e1 →
  returns (read_pdf_with_pypdf2 E pdf_path) c →
  utf8_encode c = Some bs →
  main E w = (Return (),
    {| fs := <[out_path := bs]> (fs w);
       trace := trace w ++
         [ Printed (py "Reading PDF with pdfplumber...");
           LibOpen Pdfplumber pdf_path;
           Printed (py "Error with pdfplumber: " ++ exn_text e1);
           Printed (py "Trying PyPDF2...");
           LibOpen PyPDF2 pdf_path;
           Printed (py "Successfully extracted " ++ str_of_nat (length c)
                  ++ py " characters with PyPDF2");
           FileOpenW out_path ] |}).
Proof.
  intros H1 H2 Henc. run_main.
  rewrite (pdfplumber_raises_run E _ e1) by done.
  rewrite (pypdf2_returns_run E _ c) by done.
  cbn [fs trace log]. rewrite Henc. same_world.
Qed.

(** pdfplumber returns a text the codec refuses, and the fallback block
    runs to its end. *)
Lemma main_fallback_ok_after_write_error (c1 c : pystr) (bs : bytes) (w : world) :
  returns (read_pdf_with_pdfplumber E pdf_path) c1 →
  utf8_encode c1 = None →
  returns (read_pdf_with_pypdf2 E pdf_path) c →
  utf8_encode c = Some bs →
  main E w = (Return (),
    {| fs := <[out_path := bs]> (fs w);
       trace := trace w ++
         [ Printed (py "Reading PDF with pdfplumber...");
           LibOpen Pdfplumber pdf_path;
           Printed (py "Successfully extracted " ++ str_of_nat (length c1)
                  ++ py " characters");
           FileOpenW out_path;
           Printed (py "Error with pdfplumber: " ++ codec_error_text E c1);
           Printed (py "Trying PyPDF2...");
           LibOpen PyPDF2 pdf_path;
           Printed (py "Successfully extracted " ++ str_of_nat (length c)
                  ++ py " characters with PyPDF2");
           FileOpenW out_path ] |}).
Proof.
  intros H1 Henc1 H2 Henc. run_main.
  rewrite (pdfplumber_returns_run E _ c1) by done.
  cbn [fs trace log]. rewrite Henc1.
  rewrite (pypdf2_returns_run E _ c) by done.
  cbn [fs trace log exn_text]. rewrite Henc. same_world.
Qed.

(** Every successful run leaves the encoded text in the output file and
    every other file as it was. *)
Lemma main_success_file (c : pystr) (bs : bytes) (w : world) :
  primary_succeeds E c ∨ fallback_succeeds E c →
  utf8_encode c = Some bs →
  (main E w).1 = Return () ∧ fs (main E w).2 = <[out_path := bs]> (fs w).
Proof.
  intros [[Hret _] | [[e Hfail] [Hret _]]] Henc.
  - by rewrite (main_primary_ok c bs).
  - destruct Hfail as [Hraise | (c1 & Hret1 & Henc1 & _)].
    + by rewrite (main_fallback_ok e c bs).
    + by rewrite (main_fallback_ok_after_write_error c1 c bs).
Qed.

(** When the primary block runs to its end, the last thing displayed is
    the preview: the first 2000 characters of the text, which are also the
    first 2000 characters of the file just written. *)
Lemma primary_success_preview (c : pystr) (w : world) :
  primary_succeeds E c →
  ∃ bs preview,
    fs (main E w).2 !! out_path = Some bs
    ∧ last (trace (main E w).2) = Some (Printed preview)
    ∧ length preview ≤ 2000
    ∧ take 2000 <$> utf8_decode bs = Some preview
    ∧ (length c ≤ 2000 → utf8_decode bs = Some preview).
Proof.
  intros [Hret [bs Henc]]. exists bs, (take 2000 c).
  rewrite (main_primary_ok c bs) by done. cbn [snd fs trace].
  rewrite (utf8_decode_encode c bs Henc).
  split; [apply lookup_insert_eq|].
  split; [by rewrite last_app|].
  split; [rewrite length_take; lia|].
  split; [done|]. intros Hshort. by rewrite take_ge.
Qed.

End Main.

End ExtractorProofs.
(* ===================================================================== *)
(** * The specification of the extractor *)
(* ===================================================================== *)

Module ExtractorSpec.
Import PyStr PyStrFacts Extractor ExtractorProofs.

(** C1.  When the primary strategy (pdfplumber) raises, the script reports
    that error and then asks PyPDF2 to open the document, before anything
    else is reported; and when PyPDF2 raises too, the run ends normally
    having printed the primary error and then the fallback error, the file
    system being exactly what it was (no file opened for writing). *)
Theorem fallback_before_total_failure (E : env) (e1 : exn) (w : world) :
  raises (read_pdf_with_pdfplumber E pdf_path) e1 →
  (∃ rest,
     trace (main E w).2
     = trace w ++
       [ Printed (py "Reading PDF with pdfplumber...");
         LibOpen Pdfplumber pdf_path;
         Printed (py "Error with pdfplumber: " ++ exn_text e1);
         Printed (py "Trying PyPDF2...");
         LibOpen PyPDF2 pdf_path ] ++ rest)
  ∧ (∀ e2, raises (read_pdf_with_pypdf2 E pdf_path) e2 →
       main E w = (Return (),
         {| fs := fs w;
            trace := trace w ++
              [ Printed (py "Reading PDF with pdfplumber...");
                LibOpen Pdfplumber pdf_path;
                Printed (py "Error with pdfplumber: " ++ exn_text e1);
                Printed (py "Trying PyPDF2...");
                LibOpen PyPDF2 pdf_path;
                Printed (py "Error with PyPDF2: " ++ exn_text e2) ] |})).
Proof.
  intros H1. split; [|intros e2 H2; by apply main_both_raise].
  destruct (read_pypdf2_run E pdf_path) as [[c|e2] Hr].
  - assert (Hc : returns (read_pdf_with_pypdf2 E pdf_path) c)
      by (intros w'; by rewrite Hr).
    destruct (utf8_encode c) as [bs|] eqn:Henc.
    + rewrite (main_fallback_ok E e1 c bs) by done. cbn [snd trace].
      by eexists [_; _].
    + unfold main, try_except, print, emit, open_w, file_write.
      unfold mbind, M_bind, mret, M_ret.
      rewrite (pdfplumber_raises_run E _ e1) by done.
      rewrite (pypdf2_returns_run E _ c) by done.
      cbn [fs trace log snd]. rewrite Henc. cbn [fs trace log snd].
      eexists [_; _; _]. rewrite <- !app_assoc. reflexivity.
  - assert (He : raises (read_pdf_with_pypdf2 E pdf_path) e2)
      by (intros w'; by rewrite Hr).
    rewrite (main_both_raise E e1 e2) by done. cbn [snd trace].
    by eexists [_].
Qed.

Lemma fallback_before_total_failure_witness :
  main env_unreadable w0 = (Return (),
    {| fs := ∅;
       trace :=
         [ Printed (py "Reading PDF with pdfplumber...");
           LibOpen Pdfplumber pdf_path;
           Printed (py "Error with pdfplumber: " ++ exn_text missing_file);
           Printed (py "Trying PyPDF2...");
           LibOpen PyPDF2 pdf_path;
           Printed (py "Error with PyPDF2: " ++ exn_text missing_file) ] |}).
Proof.
  assert (H1 : raises (read_pdf_with_pdfplumber env_unreadable pdf_path) missing_file)
    by (intros w; reflexivity).
  assert (H2 : raises (read_pdf_with_pypdf2 env_unreadable pdf_path) missing_file)
    by (intros w; reflexivity).
  exact (proj2 (fallback_before_total_failure env_unreadable missing_file w0 H1)
               missing_file H2).
Defined.

(** C2.  For a document that pdfplumber opens as a single page with the
    non-empty text [T], the extraction returns [T] followed by a newline;
    and when the run succeeds with it (the codec accepts it), the output
    file holds exactly its UTF-8 encoding, which reads back as the
    returned string. *)
Theorem single_page_text_returned_and_saved (E : env) (T : pystr) :
  T ≠ [] →
  open_pdf E Pdfplumber pdf_path = Pdf [PageText T] →
  returns (read_pdf_with_pdfplumber E pdf_path) (T ++ nl)
  ∧ ∀ bs, utf8_encode (T ++ nl) = Some bs →
      ∀ w, (main E w).1 = Return ()
           ∧ fs (main E w).2 !! out_path = Some bs
           ∧ utf8_decode bs = Some (T ++ nl).
Proof.
  intros HT Hopen.
  assert (Hret : returns (read_pdf_with_pdfplumber E pdf_path) (T ++ nl)).
  { destruct T as [|c t]; [done|].
    pose proof (pdfplumber_opened E pdf_path _ Hopen) as H.
    assert (Heq : newline_segments (nonempty_texts [PageText (c :: t)])
                  = (c :: t) ++ nl)
      by (rewrite nonempty_texts_cons; cbn [nonempty_text];
          rewrite newline_segments_cons; reflexivity).
    rewrite Heq in H. apply H.
    constructor; [by intros [? ?]|constructor]. }
  split; [done|]. intros bs Henc w.
  destruct (main_success_file E (T ++ nl) bs w) as [Hrun Hfs];
    [left; split; [done | by exists bs] | done |].
  split; [done|]. rewrite Hfs.
  split; [apply lookup_insert_eq | by apply utf8_decode_encode].
Qed.

Lemma single_page_text_returned_and_saved_witness :
  returns (read_pdf_with_pdfplumber env_one_page pdf_path) (py "Hello" ++ nl)
  ∧ fs (main env_one_page w0).2 !! out_path
    = Some [72; 101; 108; 108; 111; 10]%Z.
Proof.
  destruct (single_page_text_returned_and_saved env_one_page (py "Hello"))
    as [Hret Hfile]; [discriminate | reflexivity |].
  split; [exact Hret|].
  exact (proj1 (proj2 (Hfile _ eq_refl w0))).
Defined.

(** C3, as the code has it.  When pdfplumber opens a document of N pages
    none of which raises, the returned text is made of exactly K
    newline-terminated segments, one for each page that has non-empty
    text, in page order, with K ≤ N; a page without text contributes
    nothing, not even an empty segment.  K = N when every page has text. *)
Theorem pdfplumber_segments_per_page_with_text (E : env) (p : pystr)
    (pages : list page) :
  open_pdf E Pdfplumber p = Pdf pages →
  Forall (λ q, ¬ raising q) pages →
  returns (read_pdf_with_pdfplumber E p) (newline_segments (nonempty_texts pages))
  ∧ length (nonempty_texts pages)
    = length (filter (λ q, is_Some (nonempty_text q)) pages)
  ∧ length (nonempty_texts pages) ≤ length pages
  ∧ count_nl (newline_segments (nonempty_texts pages))
    = length (nonempty_texts pages) + sum_list (count_nl <$> nonempty_texts pages)
  ∧ (Forall (λ q, is_Some (nonempty_text q)) pages →
     length (nonempty_texts pages) = length pages).
Proof.
  intros Hopen Hok.
  split; [by apply pdfplumber_opened|].
  split.
  { clear. induction pages as [|q pages IH]; [done|].
    rewrite nonempty_texts_cons, filter_cons.
    destruct (nonempty_text q) as [t|] eqn:Hq.
    - rewrite decide_True by done. cbn [length]. by rewrite IH.
    - rewrite decide_False by (by intros [? ?]). done. }
  split; [apply nonempty_texts_length|].
  split; [apply count_nl_segments|].
  clear. induction 1 as [|q pages [t Hq] _ IH]; [done|].
  rewrite nonempty_texts_cons, Hq. cbn [length]. by rewrite IH.
Qed.

Lemma pdfplumber_segments_per_page_with_text_witness :
  returns (read_pdf_with_pdfplumber env_blank_page pdf_path) (py "a" ++ nl)
  ∧ length (nonempty_texts [PageText (py "a"); PageNone]) = 1.
Proof.
  destruct (pdfplumber_segments_per_page_with_text env_blank_page pdf_path
              [PageText (py "a"); PageNone]) as (Hret & Hlen & _).
  - reflexivity.
  - repeat constructor; by intros [? ?].
  - split; [exact Hret | reflexivity].
Defined.

(** C3, as stated, fails: on a document of two pages whose second page
    has no text, the returned text is ["a\n"], which is not made of two
    newline-terminated segments. *)
Lemma blank_page_leaves_no_segment :
  open_pdf env_blank_page Pdfplumber pdf_path = Pdf [PageText (py "a"); PageNone]
  ∧ returns (read_pdf_with_pdfplumber env_blank_page pdf_path) (py "a" ++ nl)
  ∧ ¬ ∃ segs : list pystr,
        length segs = 2 ∧ py "a" ++ nl = newline_segments segs.
Proof.
  split; [reflexivity|]. split; [intros w; reflexivity|].
  intros (segs & Hlen & Heq).
  apply (f_equal count_nl) in Heq. rewrite count_nl_segments, Hlen in Heq.
  vm_compute in Heq. lia.
Qed.

(** C4, at an input where only the fallback succeeds: pdfplumber raises,
    PyPDF2 returns ["x\n"].  The text is saved, and the run ends without
    displaying any preview. *)
Theorem fallback_success_shows_no_preview :
  fallback_succeeds env_fallback_only (py "x" ++ nl)
  ∧ main env_fallback_only w0 = (Return (),
      {| fs := {[ out_path := [120; 10]%Z ]};
         trace :=
           [ Printed (py "Reading PDF with pdfplumber...");
             LibOpen Pdfplumber pdf_path;
             Printed (py "Error with pdfplumber: No /Root object! - Is this really a PDF?");
             Printed (py "Trying PyPDF2...");
             LibOpen PyPDF2 pdf_path;
             Printed (py "Successfully extracted 2 characters with PyPDF2");
             FileOpenW out_path ] |})
  ∧ Printed (take 2000 (py "x" ++ nl)) ∉ trace (main env_fallback_only w0).2.
Proof.
  set (e1 := Exn LibraryError (py "No /Root object! - Is this really a PDF?")).
  assert (H1 : raises (read_pdf_with_pdfplumber env_fallback_only pdf_path) e1)
    by (intros w; reflexivity).
  assert (H2 : returns (read_pdf_with_pypdf2 env_fallback_only pdf_path) (py "x" ++ nl))
    by (intros w; reflexivity).
  assert (Hrun := main_fallback_ok env_fallback_only e1 (py "x" ++ nl)
                    [120; 10]%Z w0 H1 H2 eq_refl).
  split; [|split].
  - split; [exists e1; by left|]. split; [done|]. by eexists.
  - rewrite Hrun. unfold w0. cbn [fs trace app]. rewrite insert_empty.
    reflexivity.
  - rewrite Hrun. cbn [snd trace w0 app]. intros Hin.
    repeat (apply elem_of_cons in Hin as [Hin|Hin];
            [vm_compute in Hin; discriminate Hin|]).
    by apply elem_of_nil in Hin.
Qed.

(** C5.  There is a document with a page whose extraction yields [None]
    on which [read_pdf_with_pypdf2] raises the [TypeError] of adding
    [None] and a string, where [read_pdf_with_pdfplumber] skips the page
    and returns. *)
Theorem pypdf2_type_error_on_page_without_text :
  ∃ (E : env) (pages : list page),
    open_pdf E PyPDF2 pdf_path = Pdf pages
    ∧ PageNone ∈ pages
    ∧ raises (read_pdf_with_pypdf2 E pdf_path)
        (Exn TypeError
           (py "unsupported operand type(s) for +: 'NoneType' and 'str'"))
    ∧ open_pdf E Pdfplumber pdf_path = Pdf pages
    ∧ returns (read_pdf_with_pdfplumber E pdf_path)
        (newline_segments (nonempty_texts pages)).
Proof.
  exists env_blank_page, [PageText (py "a"); PageNone].
  split; [reflexivity|]. split; [set_solver|]. split.
  - intros w. unfold read_pdf_with_pypdf2, lib_open, emit.
    unfold mbind, M_bind, mret, M_ret. cbn [open_pdf env_blank_page env_of].
    change [PageText (py "a"); PageNone] with ([PageText (py "a")] ++ PageNone :: []).
    rewrite pypdf2_loop_none; [done|]. repeat constructor. by eexists.
  - split; [reflexivity|]. apply pdfplumber_opened; [reflexivity|].
    repeat constructor; by intros [? ?].
Qed.

(** C6.  On every successful run, from every prior state, the output file
    ends up holding exactly the UTF-8 encoding of the extracted text: what
    it held before, if it existed, plays no part, and no other file
    changes. *)
Theorem output_file_overwritten (E : env) (content : pystr) :
  primary_succeeds E content ∨ fallback_succeeds E content →
  ∃ bs, utf8_encode content = Some bs
    ∧ (∀ w, (main E w).1 = Return ()
            ∧ fs (main E w).2 = <[out_path := bs]> (fs w))
    ∧ (∀ w old,
         fs (main E {| fs := <[out_path := old]> (fs w); trace := trace w |}).2
         = fs (main E w).2).
Proof.
  intros Hok.
  assert (Henc : is_Some (utf8_encode content))
    by (destruct Hok as [[_ ?] | (_ & _ & ?)]; done).
  destruct Henc as [bs Henc]. exists bs. split; [done|].
  split; [intros w; by apply (main_success_file E content)|].
  intros w old.
  rewrite (proj2 (main_success_file E content bs _ Hok Henc)).
  rewrite (proj2 (main_success_file E content bs w Hok Henc)).
  cbn [fs]. apply insert_insert_eq.
Qed.

Lemma output_file_overwritten_witness :
  ∃ bs, utf8_encode (py "x" ++ nl) = Some bs
    ∧ (∀ w, (main env_fallback_only w).1 = Return ()
            ∧ fs (main env_fallback_only w).2 = <[out_path := bs]> (fs w))
    ∧ (∀ w old,
         fs (main env_fallback_only
               {| fs := <[out_path := old]> (fs w); trace := trace w |}).2
         = fs (main env_fallback_only w).2).
Proof.
  apply (output_file_overwritten env_fallback_only (py "x" ++ nl)).
  right. split.
  - exists (Exn LibraryError (py "No /Root object! - Is this really a PDF?")).
    left. intros w. reflexivity.
  - split; [intros w; reflexivity | by eexists].
Defined.

(** C10.  For a document that pdfplumber opens, the function returns
    (whenever no page raises, and in no other case) the concatenation, in
    page order, of [page_text + "\n"] over exactly the pages whose text is
    non-empty; that string is empty when no page has text, and ends with
    a newline otherwise. *)
Theorem pdfplumber_text_is_concatenation (E : env) (p : pystr)
    (pages : list page) :
  open_pdf E Pdfplumber p = Pdf pages →
  (Forall (λ q, ¬ raising q) pages →
   returns (read_pdf_with_pdfplumber E p) (newline_segments (nonempty_texts pages)))
  ∧ (∀ w t, (read_pdf_with_pdfplumber E p w).1 = Return t →
            t = newline_segments (nonempty_texts pages))
  ∧ (newline_segments (nonempty_texts pages) = []
     ∨ ∃ pre, newline_segments (nonempty_texts pages) = pre ++ nl)
  ∧ (newline_segments (nonempty_texts pages) = [] ↔ nonempty_texts pages = []).
Proof.
  intros Hopen. split; [by apply pdfplumber_opened|]. split.
  { intros w t Hret.
    apply pdfplumber_returns_inv in Hret as (pages' & Hopen' & _ & ->).
    rewrite Hopen in Hopen'. by injection Hopen' as <-. }
  split; [apply newline_segments_shape|].
  destruct (nonempty_texts pages) as [|t segs]; [done|].
  rewrite newline_segments_cons. split; [|done].
  intros Heq. apply (f_equal length) in Heq.
  rewrite !length_app in Heq. cbn in Heq. lia.
Qed.

Lemma pdfplumber_text_is_concatenation_witness :
  returns (read_pdf_with_pdfplumber env_blank_page pdf_path) (py "a" ++ nl).
Proof.
  refine (proj1 (pdfplumber_text_is_concatenation env_blank_page pdf_path
                   [PageText (py "a"); PageNone] eq_refl) _).
  repeat constructor; by intros [? ?].
Defined.

End ExtractorSpec.
(* ===================================================================== *)
(** * Further properties of the extractor *)
(* ===================================================================== *)

Module ExtractorMore.
Import PyStr PyStrFacts Extractor ExtractorProofs.

(** ** The codec: sizes *)

Lemma utf8_encode_char_size (c : Z) (b : bytes) :
  utf8_encode_char c = Some b →
  1 ≤ length b ≤ 4 ∧ Forall (λ x, 0 ≤ x < 256)%Z b.
Proof.
  unfold utf8_encode_char, is_surrogate.
  repeat match goal with
         | |- context [if ?t then _ else _] => destruct t eqn:?
         end; intros [= <-]; bool_to_Z;
    (split; [cbn; lia|]);
    repeat constructor; Z.to_euclidean_division_equations; lia.
Qed.

Lemma utf8_encode_size (s : pystr) (bs : bytes) :
  utf8_encode s = Some bs →
  length s ≤ length bs ≤ 4 * length s ∧ Forall (λ x, 0 ≤ x < 256)%Z bs.
Proof.
  revert bs. induction s as [|c s IH]; intros bs; cbn [utf8_encode].
  - intros [= <-]. cbn. split; [lia|constructor].
  - destruct (utf8_encode_char c) as [b|] eqn:Hc; [|done].
    destruct (utf8_encode s) as [bs'|] eqn:Hs; [|done].
    intros [= <-]. destruct (utf8_encode_char_size _ _ Hc) as [Hb Hob].
    destruct (IH _ eq_refl) as [Hl Ho].
    rewrite length_app. cbn [length]. split; [lia|]. by apply Forall_app.
Qed.

(** ** [read_pdf_with_pypdf2] as a whole *)

Lemma pypdf2_loop_bad (texts : list pystr) (bad : page) (rest : list page)
    (e : exn) (acc : pystr) (w : world) :
  pypdf2_page_error bad = Some e →
  for_each ((PageText <$> texts) ++ bad :: rest) pypdf2_page acc w = (Raise e, w).
Proof.
  intros Hbad. revert acc. induction texts as [|t texts IH]; intros acc.
  - cbn [fmap list_fmap app]. rewrite for_each_cons, pypdf2_page_run.
    destruct bad as [t| |e']; cbn in Hbad; by simplify_eq.
  - cbn [fmap list_fmap app]. rewrite for_each_cons, pypdf2_page_run. apply IH.
Qed.

(** Every list of pages is all text, or has a first page that is not. *)
Lemma pages_split (pages : list page) :
  (∃ texts, pages = PageText <$> texts)
  ∨ ∃ texts bad rest e, pages = (PageText <$> texts) ++ bad :: rest
                        ∧ pypdf2_page_error bad = Some e.
Proof.
  induction pages as [|a pages IH].
  - left. by exists [].
  - destruct a as [t| |e].
    + destruct IH as [[texts ->] | (texts & bad & rest & e & -> & Hbad)].
      * left. by exists (t :: texts).
      * right. by exists (t :: texts), bad, rest, e.
    + right. by eexists [], PageNone, pages, _.
    + right. by exists [], (PageError e), pages, e.
Qed.

Section Pypdf2.
Variable E : env.

Lemma pypdf2_opened_texts (p : pystr) (texts : list pystr) :
  open_pdf E PyPDF2 p = Pdf (PageText <$> texts) →
  returns (read_pdf_with_pypdf2 E p) (newline_segments texts).
Proof.
  intros Hopen w. unfold read_pdf_with_pypdf2, lib_open, emit.
  unfold mbind, M_bind, mret, M_ret. rewrite Hopen.
  by rewrite pypdf2_loop_texts.
Qed.

Lemma pypdf2_opened_bad (p : pystr) (texts : list pystr) (bad : page)
    (rest : list page) (e : exn) :
  open_pdf E PyPDF2 p = Pdf ((PageText <$> texts) ++ bad :: rest) →
  pypdf2_page_error bad = Some e →
  raises (read_pdf_with_pypdf2 E p) e.
Proof.
  intros Hopen Hbad w. unfold read_pdf_with_pypdf2, lib_open, emit.
  unfold mbind, M_bind, mret, M_ret. rewrite Hopen.
  by rewrite (pypdf2_loop_bad texts bad rest e).
Qed.

End Pypdf2.

(** ** The two blocks of the script *)

Section Blocks.
Variable E : env.

Lemma main_blocks :
  main E = (print (py "Reading PDF with pdfplumber...");;
            try_except (primary_block E) (fallback_block E)).
Proof. reflexivity. Qed.

Ltac run_block :=
  unfold try_except, print, emit, open_w, file_write;
  unfold mbind, M_bind, mret, M_ret; cbn [fs trace fst snd].

Ltac close_world :=
  unfold log; cbn [fs trace exn_text];
  rewrite ?lookup_insert_eq; cbn [default app];
  rewrite ?insert_insert_eq, <- ?app_assoc; cbn [app]; reflexivity.

(** The primary block, case by case. *)
Lemma primary_block_run :
  ∃ r, (∀ w, read_pdf_with_pdfplumber E pdf_path w
             = (r, log (LibOpen Pdfplumber pdf_path) w))
  ∧ ∀ w, primary_block E w
    = match r with
      | Raise e => (Raise e, log (LibOpen Pdfplumber pdf_path) w)
      | Return c =>
          match utf8_encode c with
          | Some bs =>
              (Return (),
               {| fs := <[out_path := bs]> (fs w);
                  trace := trace w ++
                    [ LibOpen Pdfplumber pdf_path;
                      Printed (py "Successfully extracted "
                               ++ str_of_nat (length c) ++ py " characters");
                      FileOpenW out_path;
                      Printed (py "Content saved to asi_arch_paper.txt");
                      Printed (nl ++ py "--- PREVIEW (first 2000 chars) ---");
                      Printed (take 2000 c) ] |})
          | None =>
              (Raise (Exn UnicodeEncodeError (codec_error_text E c)),
               {| fs := <[out_path := []]> (fs w);
                  trace := trace w ++
                    [ LibOpen Pdfplumber pdf_path;
                      Printed (py "Successfully extracted "
                               ++ str_of_nat (length c) ++ py " characters");
                      FileOpenW out_path ] |})
          end
      end.
Proof.
  destruct (read_pdfplumber_run E pdf_path) as [r Hr]. exists r.
  split; [done|]. intros w. unfold primary_block. run_block. rewrite Hr.
  destruct r as [c|e]; [|done]. cbn [fs trace log].
  destruct (utf8_encode c) as [bs|]; close_world.
Qed.

(** The [except] clause, case by case. *)
Lemma fallback_block_run (e : exn) :
  ∃ r, (∀ w, read_pdf_with_pypdf2 E pdf_path w
             = (r, log (LibOpen PyPDF2 pdf_path) w))
  ∧ ∀ w, fallback_block E e w
    = (Return (),
       match r with
       | Raise e2 =>
           {| fs := fs w;
              trace := trace w ++
                [ Printed (py "Error with pdfplumber: " ++ exn_text e);
                  Printed (py "Trying PyPDF2...");
                  LibOpen PyPDF2 pdf_path;
                  Printed (py "Error with PyPDF2: " ++ exn_text e2) ] |}
       | Return c =>
           match utf8_encode c with
           | Some bs =>
               {| fs := <[out_path := bs]> (fs w);
                  trace := trace w ++
                    [ Printed (py "Error with pdfplumber: " ++ exn_text e);
                      Printed (py "Trying PyPDF2...");
                      LibOpen PyPDF2 pdf_path;
                      Printed (py "Successfully extracted "
                               ++ str_of_nat (length c)
                               ++ py " characters with PyPDF2");
                      FileOpenW out_path ] |}
           | None =>
               {| fs := <[out_path := []]> (fs w);
                  trace := trace w ++
                    [ Printed (py "Error with pdfplumber: " ++ exn_text e);
                      Printed (py "Trying PyPDF2...");
                      LibOpen PyPDF2 pdf_path;
                      Printed (py "Successfully extracted "
                               ++ str_of_nat (length c)
                               ++ py " characters with PyPDF2");
                      FileOpenW out_path;
                      Printed (py "Error with PyPDF2: "
                               ++ codec_error_text E c) ] |}
           end
       end).
Proof.
  destruct (read_pypdf2_run E pdf_path) as [r Hr]. exists r.
  split; [done|]. intros w. unfold fallback_block. run_block. rewrite Hr.
  destruct r as [c|e2]; cbn [fs trace log]; [|f_equal; close_world].
  destruct (utf8_encode c) as [bs|]; f_equal; close_world.
Qed.

End Blocks.

(** ** What the extraction functions do *)

(** X1.  On a document PyPDF2 opens, [read_pdf_with_pypdf2] returns a text
    exactly when every page yields a string, and the text is then one
    newline-terminated segment per page, in page order, a page with the
    empty string giving an empty segment: no partial text is ever
    returned. *)
Theorem pypdf2_one_segment_per_page (E : env) (p : pystr) (pages : list page)
    (text : pystr) :
  open_pdf E PyPDF2 p = Pdf pages →
  returns (read_pdf_with_pypdf2 E p) text
  ↔ ∃ texts, pages = PageText <$> texts
             ∧ length texts = length pages
             ∧ text = newline_segments texts.
Proof.
  intros Hopen. split.
  - intros Hret. destruct (pages_split pages)
      as [[texts ->] | (texts & bad & rest & e & -> & Hbad)].
    + exists texts. split; [done|]. split; [by rewrite length_fmap|].
      pose proof (pypdf2_opened_texts E p texts Hopen w0) as H.
      rewrite (Hret w0) in H. by injection H.
    + pose proof (pypdf2_opened_bad E p texts bad rest e Hopen Hbad w0) as H.
      rewrite (Hret w0) in H. discriminate H.
  - intros (texts & -> & _ & ->). by apply pypdf2_opened_texts.
Qed.

Lemma pypdf2_one_segment_per_page_witness :
  returns (read_pdf_with_pypdf2 env_empty_page pdf_path)
    (py "a" ++ nl ++ nl ++ py "b" ++ nl).
Proof.
  apply (pypdf2_one_segment_per_page env_empty_page pdf_path
           [PageText (py "a"); PageText []; PageText (py "b")]).
  - reflexivity.
  - exists [py "a"; []; py "b"]. by repeat split.
Defined.

(** X2.  In [read_pdf_with_pypdf2] the first page that does not yield a
    string decides the outcome: its own exception, or the [TypeError] of
    [None + "\n"], is raised, whatever the pages after it are, and the
    text of the pages before it is lost. *)
Theorem pypdf2_first_bad_page_decides (E : env) (p : pystr)
    (texts : list pystr) (bad : page) (rest : list page) (e : exn) :
  open_pdf E PyPDF2 p = Pdf ((PageText <$> texts) ++ bad :: rest) →
  pypdf2_page_error bad = Some e →
  raises (read_pdf_with_pypdf2 E p) e.
Proof. apply pypdf2_opened_bad. Qed.

Lemma pypdf2_first_bad_page_decides_witness :
  raises (read_pdf_with_pypdf2 env_blank_page pdf_path)
    (Exn TypeError (py "unsupported operand type(s) for +: 'NoneType' and 'str'")).
Proof.
  apply (pypdf2_first_bad_page_decides env_blank_page pdf_path [py "a"] PageNone []);
    reflexivity.
Defined.

(** X3.  In [read_pdf_with_pdfplumber] the first page whose extraction
    raises ends the function with that exception, whatever comes after
    it; pages without text before it make no difference. *)
Theorem pdfplumber_first_raising_page_decides (E : env) (p : pystr)
    (pre post : list page) (e : exn) :
  open_pdf E Pdfplumber p = Pdf (pre ++ PageError e :: post) →
  Forall (λ q, ¬ raising q) pre →
  raises (read_pdf_with_pdfplumber E p) e.
Proof.
  intros Hopen Hpre w. unfold read_pdf_with_pdfplumber, lib_open, emit.
  unfold mbind, M_bind, mret, M_ret. rewrite Hopen.
  by rewrite pdfplumber_loop_raise.
Qed.

Lemma pdfplumber_first_raising_page_decides_witness :
  raises (read_pdf_with_pdfplumber
            (env_of (Pdf [PageNone; PageText (py "a"); PageError missing_file;
                          PageText (py "b")])
                    (OpenError missing_file)) pdf_path) missing_file.
Proof.
  apply (pdfplumber_first_raising_page_decides _ pdf_path
           [PageNone; PageText (py "a")] [PageText (py "b")] missing_file).
  - reflexivity.
  - repeat constructor; by intros [? ?].
Defined.

(** X4.  When both libraries see the same pages, each with a string,
    PyPDF2's function returns one segment per page and pdfplumber's the
    same text without the segments of the empty pages: the two returned
    texts are equal exactly when no page is empty, and otherwise differ by
    one newline for each empty page. *)
Theorem strategies_compared (E : env) (p : pystr) (texts : list pystr) :
  open_pdf E Pdfplumber p = Pdf (PageText <$> texts) →
  open_pdf E PyPDF2 p = Pdf (PageText <$> texts) →
  returns (read_pdf_with_pypdf2 E p) (newline_segments texts)
  ∧ returns (read_pdf_with_pdfplumber E p)
      (newline_segments (filter (λ t, t ≠ []) texts))
  ∧ count_nl (newline_segments texts)
    = count_nl (newline_segments (filter (λ t, t ≠ []) texts))
      + length (filter (λ t, t = []) texts)
  ∧ (newline_segments texts = newline_segments (filter (λ t, t ≠ []) texts)
     ↔ Forall (λ t, t ≠ []) texts).
Proof.
  intros Hpl Hpy.
  assert (Hne : nonempty_texts (PageText <$> texts) = filter (λ t, t ≠ []) texts).
  { clear. induction texts as [|t texts IH]; [done|].
    cbn [fmap list_fmap]. rewrite nonempty_texts_cons, filter_cons.
    change (list_fmap pystr page PageText texts) with (PageText <$> texts).
    destruct t as [|c t]; cbn [nonempty_text].
    - by rewrite decide_False by (by intros []).
    - rewrite decide_True by done. by rewrite IH. }
  assert (Hcount : count_nl (newline_segments texts)
    = count_nl (newline_segments (filter (λ t, t ≠ []) texts))
      + length (filter (λ t, t = []) texts)).
  { clear. induction texts as [|t texts IH]; [done|].
    rewrite newline_segments_cons, !count_nl_app, !filter_cons, IH.
    destruct t as [|c t].
    - rewrite decide_False by (by intros []). rewrite decide_True by done.
      cbn [length]. change (count_nl []) with 0.
      change (count_nl nl) with 1. lia.
    - rewrite decide_True by done. rewrite decide_False by done.
      rewrite newline_segments_cons, !count_nl_app. lia. }
  split; [by apply pypdf2_opened_texts|].
  split.
  { rewrite <- Hne. apply pdfplumber_opened; [done|].
    clear. induction texts as [|t texts IH]; constructor; [|done].
    by intros [? ?]. }
  split; [done|].
  split.
  - intros Heq. rewrite Heq in Hcount.
    assert (Hnone : filter (λ t : pystr, t = []) texts = [])
      by (apply length_zero_iff_nil; lia).
    apply Forall_forall. intros t Ht ->.
    assert (Hin : ([] : pystr) ∈ filter (λ t : pystr, t = []) texts)
      by (by apply list_elem_of_filter).
    rewrite Hnone in Hin. by apply elem_of_nil in Hin.
  - intros Hall. f_equal. symmetry. clear -Hall.
    induction Hall as [|t texts Ht _ IH]; [done|].
    rewrite filter_cons, decide_True by done. by rewrite IH.
Qed.

Lemma strategies_compared_witness :
  returns (read_pdf_with_pypdf2 env_empty_page pdf_path)
    (py "a" ++ nl ++ nl ++ py "b" ++ nl)
  ∧ returns (read_pdf_with_pdfplumber env_empty_page pdf_path)
      (py "a" ++ nl ++ py "b" ++ nl).
Proof.
  destruct (strategies_compared env_empty_page pdf_path [py "a"; []; py "b"])
    as (Hpy & Hpl & _); [reflexivity | reflexivity |].
  split; [exact Hpy | exact Hpl].
Defined.

(** X5.  Neither extraction function writes anything: whatever the
    document, the file system after the call is the one before it, and
    the only thing that happened is that the library opened the path. *)
Theorem extraction_leaves_files_alone (E : env) (p : pystr) (w : world) :
  fs (read_pdf_with_pdfplumber E p w).2 = fs w
  ∧ new_events w (read_pdf_with_pdfplumber E p w).2 = [LibOpen Pdfplumber p]
  ∧ fs (read_pdf_with_pypdf2 E p w).2 = fs w
  ∧ new_events w (read_pdf_with_pypdf2 E p w).2 = [LibOpen PyPDF2 p].
Proof.
  destruct (read_pdfplumber_run E p) as [r1 H1].
  destruct (read_pypdf2_run E p) as [r2 H2].
  rewrite H1, H2. unfold new_events, log. cbn [snd fs trace].
  by rewrite !drop_app_length.
Qed.

(** ** What every run of the script does *)

(** X6.  Whatever the document and the libraries do, the script ends
    normally: every exception of the extraction and of the write is caught
    by one of the two [except] clauses.  It starts by announcing
    pdfplumber and asking it to open the fixed input path. *)
Theorem script_always_ends_normally (E : env) (w : world) :
  (main E w).1 = Return ()
  ∧ ∃ more, new_events w (main E w).2
            = Printed (py "Reading PDF with pdfplumber...")
              :: LibOpen Pdfplumber pdf_path :: more.
Proof.
  rewrite main_blocks. unfold try_except, print, emit.
  unfold mbind, M_bind, mret, M_ret, new_events.
  destruct (primary_block_run E) as (r1 & _ & H1). rewrite H1.
  destruct r1 as [c|e].
  - destruct (utf8_encode c) as [bs|].
    + split; [done|]. cbn [snd fs trace]. rewrite <- app_assoc.
      rewrite drop_app_length. by eexists.
    + destruct (fallback_block_run E (Exn UnicodeEncodeError (codec_error_text E c)))
        as (r2 & _ & H2).
      rewrite H2. split; [done|]. cbn [snd].
      destruct r2 as [c2|e2]; [destruct (utf8_encode c2)|];
        cbn [fs trace]; rewrite <- !app_assoc, drop_app_length; by eexists.
  - destruct (fallback_block_run E e) as (r2 & _ & H2).
    rewrite H2. split; [done|]. cbn [snd].
    destruct r2 as [c2|e2]; [destruct (utf8_encode c2)|];
      unfold log; cbn [fs trace]; rewrite <- !app_assoc, drop_app_length;
      by eexists.
Qed.

(** X7.  The only file the script ever creates or changes is the fixed
    output path: every other path holds after the run what it held
    before, on success and on failure alike. *)
Theorem script_touches_only_output (E : env) (w : world) (path : pystr) :
  path ≠ out_path →
  fs (main E w).2 !! path = fs w !! path.
Proof.
  intros Hne. rewrite main_blocks. unfold try_except, print, emit.
  unfold mbind, M_bind, mret, M_ret.
  destruct (primary_block_run E) as (r1 & _ & H1). rewrite H1.
  destruct r1 as [c|e].
  - destruct (utf8_encode c) as [bs|].
    + cbn [snd fs]. by rewrite lookup_insert_ne.
    + destruct (fallback_block_run E (Exn UnicodeEncodeError (codec_error_text E c)))
        as (r2 & _ & H2).
      rewrite H2. cbn [snd].
      destruct r2 as [c2|e2]; [destruct (utf8_encode c2)|];
        cbn [fs]; by rewrite ?lookup_insert_ne.
  - destruct (fallback_block_run E e) as (r2 & _ & H2).
    rewrite H2. cbn [snd].
    destruct r2 as [c2|e2]; [destruct (utf8_encode c2)|];
      unfold log; cbn [fs]; by rewrite ?lookup_insert_ne.
Qed.

Lemma script_touches_only_output_witness :
  fs (main env_fallback_only w_old).2 !! py "notes.txt" = Some (py "keep").
Proof.
  rewrite (script_touches_only_output env_fallback_only w_old (py "notes.txt"))
    by (vm_compute; discriminate).
  reflexivity.
Defined.

(** X8.  Whenever the primary block fails (pdfplumber raises, or it
    returns a text that the UTF-8 codec refuses at the write), the script
    goes on to the fallback: the opening of the document for PyPDF2 is
    among the events of the run. *)
Theorem failed_primary_consults_fallback (E : env) (e : exn) (w : world) :
  primary_fails E e →
  LibOpen PyPDF2 pdf_path ∈ new_events w (main E w).2.
Proof.
  intros Hfail.
  rewrite main_blocks. unfold try_except, print, emit.
  unfold mbind, M_bind, mret, M_ret, new_events.
  destruct (primary_block_run E) as (r1 & Hr1 & H1). rewrite H1.
  assert (Hopened : ∀ e' w',
    LibOpen PyPDF2 pdf_path
    ∈ drop (length (trace w')) (trace (fallback_block E e' w').2)).
  { intros e' w'. destruct (fallback_block_run E e') as (r2 & _ & H2).
    rewrite H2. cbn [snd].
    destruct r2 as [c2|e2]; [destruct (utf8_encode c2)|];
      cbn [trace]; rewrite drop_app_length; set_solver. }
  assert (Hlater : ∀ (l : list event) (n k : nat) x,
    x ∈ drop (n + k) l → x ∈ drop n l).
  { intros l n k x Hx. rewrite <- drop_drop in Hx.
    by apply (subseteq_drop k). }
  destruct r1 as [c|e1].
  + destruct (utf8_encode c) as [bs|] eqn:Henc.
    * exfalso. destruct Hfail as [Hraise | (c' & Hret' & Henc' & _)].
      -- specialize (Hraise w0). rewrite Hr1 in Hraise. discriminate Hraise.
      -- specialize (Hret' w0). rewrite Hr1 in Hret'. cbn [fst] in Hret'.
         injection Hret' as <-. rewrite Henc in Henc'. discriminate Henc'.
    * match goal with |- _ ∈ drop _ (trace (fallback_block E ?e' ?w').2) =>
        specialize (Hopened e' w') end.
      cbn [trace] in Hopened. rewrite !length_app in Hopened.
      by do 2 apply Hlater in Hopened.
  + match goal with |- _ ∈ drop _ (trace (fallback_block E ?e' ?w').2) =>
      specialize (Hopened e' w') end.
    unfold log in Hopened. cbn [trace] in Hopened.
    rewrite !length_app in Hopened.
    by do 2 apply Hlater in Hopened.
Qed.

Lemma failed_primary_consults_fallback_witness :
  LibOpen PyPDF2 pdf_path ∈ new_events w_old (main env_unencodable w_old).2.
Proof.
  apply (failed_primary_consults_fallback env_unencodable
           (Exn UnicodeEncodeError
              (codec_error_text env_unencodable [0xD83D; 10]%Z)) w_old).
  right. exists [0xD83D; 10]%Z.
  split; [intros w; reflexivity | split; reflexivity].
Defined.

(** X9.  When the primary block runs to its end, the last thing the
    script displays is the preview: at most 2000 characters, equal to the
    first 2000 characters of the file it has just written, and to the
    whole file when the text is not longer than that. *)
Theorem preview_is_head_of_saved_file (E : env) (content : pystr) (w : world) :
  primary_succeeds E content →
  ∃ bs preview,
    fs (main E w).2 !! out_path = Some bs
    ∧ last (trace (main E w).2) = Some (Printed preview)
    ∧ length preview ≤ 2000
    ∧ take 2000 <$> utf8_decode bs = Some preview
    ∧ (length content ≤ 2000 → utf8_decode bs = Some preview).
Proof.
  intros [Hret [bs Henc]]. exists bs, (take 2000 content).
  rewrite (main_primary_ok E content bs) by done. cbn [snd fs trace].
  rewrite (utf8_decode_encode content bs Henc).
  split; [apply lookup_insert_eq|].
  split; [by rewrite last_app|].
  split; [rewrite length_take; lia|].
  split; [done|]. intros Hshort. by rewrite take_ge.
Qed.

Lemma preview_is_head_of_saved_file_witness :
  ∃ bs preview,
    fs (main env_one_page w0).2 !! out_path = Some bs
    ∧ last (trace (main env_one_page w0).2) = Some (Printed preview)
    ∧ length preview ≤ 2000
    ∧ take 2000 <$> utf8_decode bs = Some preview
    ∧ (length (py "Hello" ++ nl) ≤ 2000 → utf8_decode bs = Some preview).
Proof.
  apply (preview_is_head_of_saved_file env_one_page (py "Hello" ++ nl) w0).
  split; [intros w; reflexivity | by eexists].
Defined.

(** X10.  No recovery from a failed write: when pdfplumber returns a text
    that UTF-8 refuses and PyPDF2 then raises, the run ends with both
    errors printed and the output file left empty, whatever it held
    before (it was emptied when opened for writing). *)
Theorem refused_text_leaves_output_empty (E : env) (c1 : pystr) (e2 : exn)
    (w : world) :
  returns (read_pdf_with_pdfplumber E pdf_path) c1 →
  utf8_encode c1 = None →
  raises (read_pdf_with_pypdf2 E pdf_path) e2 →
  main E w = (Return (),
    {| fs := <[out_path := []]> (fs w);
       trace := trace w ++
         [ Printed (py "Reading PDF with pdfplumber...");
           LibOpen Pdfplumber pdf_path;
           Printed (py "Successfully extracted " ++ str_of_nat (length c1)
                    ++ py " characters");
           FileOpenW out_path;
           Printed (py "Error with pdfplumber: " ++ codec_error_text E c1);
           Printed (py "Trying PyPDF2...");
           LibOpen PyPDF2 pdf_path;
           Printed (py "Error with PyPDF2: " ++ exn_text e2) ] |}).
Proof.
  intros H1 Henc H2. rewrite main_blocks. unfold try_except, print, emit.
  unfold mbind, M_bind, mret, M_ret.
  destruct (primary_block_run E) as (r1 & Hr1 & Hp). rewrite Hp.
  specialize (H1 w0). rewrite Hr1 in H1. cbn [fst] in H1. subst r1.
  rewrite Henc.
  destruct (fallback_block_run E (Exn UnicodeEncodeError (codec_error_text E c1)))
    as (r2 & Hr2 & Hf).
  rewrite Hf. specialize (H2 w0). rewrite Hr2 in H2. cbn [fst] in H2. subst r2.
  cbn [fs trace exn_text]. rewrite <- !app_assoc. reflexivity.
Qed.

Lemma refused_text_leaves_output_empty_witness :
  fs (main env_unencodable w_old).2 !! out_path = Some [].
Proof.
  rewrite (refused_text_leaves_output_empty env_unencodable [0xD83D; 10]%Z
             missing_file w_old);
    [apply lookup_insert_eq | intros w; reflexivity | reflexivity
    | intros w; reflexivity].
Defined.

(** X11.  Round trip: on every successful run, primary or fallback,
    reading the output file back as UTF-8 gives exactly the text the
    successful strategy returned. *)
Theorem saved_file_reads_back (E : env) (content : pystr) (w : world) :
  primary_succeeds E content ∨ fallback_succeeds E content →
  ∃ bs, fs (main E w).2 !! out_path = Some bs
        ∧ utf8_decode bs = Some content.
Proof.
  intros Hok.
  assert (Henc : is_Some (utf8_encode content))
    by (destruct Hok as [[_ ?] | (_ & _ & ?)]; done).
  destruct Henc as [bs Henc]. exists bs.
  rewrite (proj2 (main_success_file E content bs w Hok Henc)).
  split; [apply lookup_insert_eq | by apply utf8_decode_encode].
Qed.

Lemma saved_file_reads_back_witness :
  ∃ bs, fs (main env_fallback_only w_old).2 !! out_path = Some bs
        ∧ utf8_decode bs = Some (py "x" ++ nl).
Proof.
  apply (saved_file_reads_back env_fallback_only (py "x" ++ nl) w_old).
  right. split.
  - exists (Exn LibraryError (py "No /Root object! - Is this really a PDF?")).
    left. intros w. reflexivity.
  - split; [intros w; reflexivity | by eexists].
Defined.

(** X12.  The number the script reports counts characters, not bytes: on
    a successful run with a text of N characters the output file is made
    of octets and has at least N and at most 4 N of them. *)
Theorem saved_file_size (E : env) (content : pystr) (w : world) :
  primary_succeeds E content ∨ fallback_succeeds E content →
  ∃ bs, fs (main E w).2 !! out_path = Some bs
        ∧ length content ≤ length bs ≤ 4 * length content
        ∧ Forall (λ b, 0 ≤ b < 256)%Z bs.
Proof.
  intros Hok.
  assert (Henc : is_Some (utf8_encode content))
    by (destruct Hok as [[_ ?] | (_ & _ & ?)]; done).
  destruct Henc as [bs Henc]. exists bs.
  rewrite (proj2 (main_success_file E content bs w Hok Henc)).
  split; [apply lookup_insert_eq | by apply utf8_encode_size].
Qed.

Lemma saved_file_size_witness :
  ∃ bs, fs (main env_one_page w0).2 !! out_path = Some bs
        ∧ length (py "Hello" ++ nl) ≤ length bs ≤ 4 * length (py "Hello" ++ nl)
        ∧ Forall (λ b, 0 ≤ b < 256)%Z bs.
Proof.
  apply (saved_file_size env_one_page (py "Hello" ++ nl) w0).
  left. split; [intros w; reflexivity | by eexists].
Defined.

End ExtractorMore.
(* ===================================================================== *)
(** * Properties of the development server *)
(* ===================================================================== *)

Module DevServerProofs.
Import PyStr DevServer.

(** ** Lists of actions *)

Lemma writes_app (l1 l2 : list action) : writes (l1 ++ l2) = writes l1 ++ writes l2.
Proof. apply omap_app. Qed.


Lemma crashed_app (l1 l2 : list action) :
  crashed (l1 ++ l2) = crashed l1 || crashed l2.
Proof. apply existsb_app. Qed.

Lemma writes_Write (chunks : list bytes) : writes (Write <$> chunks) = chunks.
Proof. induction chunks as [|d chunks IH]; [done|]. cbn. by f_equal. Qed.


Lemma crashed_Write (chunks : list bytes) : crashed (Write <$> chunks) = false.
Proof. by induction chunks. Qed.

Lemma until_crash_quiet (acts : list action) :
  crashed acts = false → until_crash acts = acts.
Proof.
  induction acts as [|a acts IH]; [done|]. cbn [crashed existsb].
  destruct a; cbn [orb]; try discriminate; intros H; cbn [until_crash];
    by rewrite IH.
Qed.

(** ** The two formats of the library *)

Lemma percent_request (line : pystr) (code : Z) :
  percent ([34%Z] ++ py "%s" ++ [34%Z] ++ py " %s %s")
    [VStr line; VStr (str_of_Z code); VStr (py "-")]
  = Some (request_logged line code).
Proof.
  reflexivity.
Qed.

Lemma percent_error (code : Z) (message : pystr) :
  percent (py "code %d, message %s") [VInt code; VStr message]
  = Some (error_logged code message).
Proof.
  transitivity (Some (error_logged code (message ++ []))); [reflexivity|].
  by rewrite app_nil_r.
Qed.

(** ** The methods of a handler *)

Lemma after_nil (self : handler) : after (headers_buffer self) [] self = self.
Proof. destruct self. unfold after. cbn. by rewrite app_nil_r. Qed.

(** Under [Hv], the version of the handler is not [HTTP/0.9]: the header
    methods do their work. *)
Ltac headers_on Hv :=
  repeat (cbn [request_version headers_buffer performed command requestline
               client_address after act set_buffer set_request];
          rewrite ?(bool_decide_eq_true_2 _ Hv)).

(** Under [Hv], the version of the handler is [HTTP/0.9]: the header
    methods do nothing. *)
Ltac headers_off Hv :=
  repeat (cbn [request_version headers_buffer performed command requestline
               client_address after act set_buffer set_request];
          rewrite ?(bool_decide_eq_false_2 _ (λ Hne, Hne Hv))).

Ltac same_handler :=
  unfold flush_headers, write; unfold after, act, set_buffer;
  cbn [request_version headers_buffer performed command requestline
       client_address];
  f_equal; rewrite <- ?app_assoc; try reflexivity.

Lemma send_headers_on (hs : list (pystr * pystr)) (self : handler) :
  request_version self ≠ py "HTTP/0.9" →
  foldl (λ self kv, send_header kv.1 kv.2 self) self hs
  = after (headers_buffer self ++ (header_line <$> hs)) [] self.
Proof.
  revert self. induction hs as [|[k v] hs IH]; intros self Hv.
  - cbn [foldl fmap list_fmap]. by rewrite app_nil_r, after_nil.
  - cbn [foldl fst snd fmap list_fmap]. unfold send_header at 2, has_headers.
    headers_on Hv. rewrite IH by exact Hv. same_handler.
Qed.

Lemma send_headers_off (hs : list (pystr * pystr)) (self : handler) :
  request_version self = py "HTTP/0.9" →
  foldl (λ self kv, send_header kv.1 kv.2 self) self hs = self.
Proof.
  intros Hv. induction hs as [|[k v] hs IH]; [done|].
  cbn [foldl fst snd]. unfold send_header at 2, has_headers.
  by headers_off Hv.
Qed.

Lemma write_all (chunks : list bytes) (self : handler) :
  foldl (λ self data, write data self) self chunks
  = after (headers_buffer self) (Write <$> chunks) self.
Proof.
  revert self. induction chunks as [|d chunks IH]; intros self.
  - cbn [foldl fmap list_fmap]. by rewrite after_nil.
  - cbn [foldl fmap list_fmap]. rewrite IH. same_handler.
Qed.

Section Class.

Variable L : inherited.
Variable cls : handler_class.
Variable extra : list bytes.
Variable note : pystr → pystr → action.
Hypothesis Hcls : class_adds cls extra note.

Lemma log_message_run (format : pystr) (args : list pyval) (message : pystr)
    (self : handler) :
  percent format args = Some message →
  log_message cls format args self
  = after (headers_buffer self) [note (client_address self) message] self.
Proof using Hcls.
  intros Hm. destruct Hcls as (_ & Hlog & _). by rewrite Hlog, Hm.
Qed.

Lemma log_request_run (code : Z) (self : handler) :
  log_request cls code self
  = after (headers_buffer self)
      [note (client_address self) (request_logged (requestline self) code)] self.
Proof using Hcls.
  unfold log_request. apply log_message_run, percent_request.
Qed.

Lemma end_headers_on (self : handler) :
  request_version self ≠ py "HTTP/0.9" →
  end_headers cls self
  = after [] [Write (concat (headers_buffer self ++ extra ++ [crlf]))] self.
Proof using Hcls.
  intros Hv. destruct Hcls as (Hend & _). rewrite Hend. unfold has_headers.
  by rewrite (bool_decide_eq_true_2 _ Hv).
Qed.

Lemma end_headers_off (self : handler) :
  request_version self = py "HTTP/0.9" →
  end_headers cls self = self.
Proof using Hcls.
  intros Hv. destruct Hcls as (Hend & _). rewrite Hend. unfold has_headers.
  by rewrite (bool_decide_eq_false_2 _ (λ Hne, Hne Hv)).
Qed.

Lemma send_response_on (code : Z) (message : option pystr) (self : handler) :
  request_version self ≠ py "HTTP/0.9" →
  send_response L cls code message self
  = after (headers_buffer self
           ++ response_lines L code (reason_phrase L code message))
      [note (client_address self) (request_logged (requestline self) code)]
      self.
Proof using Hcls.
  intros Hv. unfold send_response. rewrite log_request_run.
  unfold send_response_only, send_header, has_headers, response_lines.
  headers_on Hv. same_handler.
Qed.

Lemma send_response_off (code : Z) (message : option pystr) (self : handler) :
  request_version self = py "HTTP/0.9" →
  send_response L cls code message self
  = after (headers_buffer self)
      [note (client_address self) (request_logged (requestline self) code)]
      self.
Proof using Hcls.
  intros Hv. unfold send_response. rewrite log_request_run.
  unfold send_response_only, send_header, has_headers.
  headers_off Hv. same_handler.
Qed.

(** An error reply: two messages are logged, then the header block and
    the page go out. *)
Lemma send_error_on (code : Z) (message explain : option pystr)
    (self : handler) :
  request_version self ≠ py "HTTP/0.9" →
  send_error L cls code message explain self
  = let m := error_message L code message in
    let body := error_body L code m (error_explain L code explain) in
    after []
      ([ note (client_address self) (error_logged code m);
         note (client_address self) (request_logged (requestline self) code);
         Write (concat (headers_buffer self ++ response_lines L code m
                        ++ error_headers body ++ extra ++ [crlf])) ]
       ++ (Write <$> error_sent body (command self))) self.
Proof using Hcls.
  intros Hv. unfold send_error, log_error.
  rewrite (log_message_run _ _ _ _ (percent_error _ _)).
  rewrite send_response_on by exact Hv.
  cbn zeta. unfold response_lines, error_headers, error_sent.
  destruct (error_body L code (error_message L code message)
              (error_explain L code explain)) as [[|b0 b]|];
    unfold send_header, has_headers; headers_on Hv;
    rewrite end_headers_on by exact Hv; headers_on Hv;
    try case_bool_decide; same_handler.
Qed.

Lemma send_error_off (code : Z) (message explain : option pystr)
    (self : handler) :
  request_version self = py "HTTP/0.9" →
  send_error L cls code message explain self
  = let m := error_message L code message in
    let body := error_body L code m (error_explain L code explain) in
    after (headers_buffer self)
      ([ note (client_address self) (error_logged code m);
         note (client_address self) (request_logged (requestline self) code) ]
       ++ (Write <$> error_sent body (command self))) self.
Proof using Hcls.
  intros Hv. unfold send_error, log_error.
  rewrite (log_message_run _ _ _ _ (percent_error _ _)).
  rewrite send_response_off by exact Hv.
  cbn zeta. unfold error_sent.
  destruct (error_body L code (error_message L code message)
              (error_explain L code explain)) as [[|b0 b]|];
    unfold send_header, has_headers; headers_off Hv;
    rewrite end_headers_off by exact Hv; headers_off Hv;
    try case_bool_decide; same_handler.
Qed.

(** [do_GET] and [do_HEAD]: an answer is logged once, then the header
    block and the writes of the body go out; a refusal is an error
    reply. *)
Lemma do_method_on (directory : pystr) (a : arrival) (self : handler) :
  request_version self ≠ py "HTTP/0.9" →
  do_method L cls directory a self
  = match static_answer L directory a with
    | Answer code hs body =>
        after []
          ([ note (client_address self) (request_logged (requestline self) code);
             Write (concat (headers_buffer self
                            ++ response_lines L code (reason_phrase L code None)
                            ++ (header_line <$> hs) ++ extra ++ [crlf])) ]
           ++ (Write <$> body)) self
    | Refusal code message => send_error L cls code (Some message) None self
    end.
Proof using Hcls.
  intros Hv. unfold do_method. destruct (static_answer L directory a); [|done].
  rewrite send_response_on by exact Hv.
  rewrite send_headers_on by exact Hv.
  rewrite end_headers_on by exact Hv.
  rewrite write_all. headers_on Hv. same_handler.
Qed.

Lemma do_method_off (directory : pystr) (a : arrival) (self : handler) :
  request_version self = py "HTTP/0.9" →
  do_method L cls directory a self
  = match static_answer L directory a with
    | Answer code hs body =>
        after (headers_buffer self)
          ([ note (client_address self) (request_logged (requestline self) code) ]
           ++ (Write <$> body)) self
    | Refusal code message => send_error L cls code (Some message) None self
    end.
Proof using Hcls.
  intros Hv. unfold do_method. destruct (static_answer L directory a); [|done].
  rewrite send_response_off by exact Hv.
  rewrite send_headers_off by exact Hv.
  rewrite end_headers_off by exact Hv.
  rewrite write_all. headers_off Hv. same_handler.
Qed.

(** What the class's [log_message] reports is neither a write nor an
    exception. *)
Lemma writes_note (client message : pystr) (acts : list action) :
  writes (note client message :: acts) = writes acts.
Proof using Hcls.
  destruct Hcls as (_ & _ & Hnote). destruct (Hnote client message) as [Hw _].
  change (writes ([note client message] ++ acts) = writes acts).
  by rewrite writes_app, Hw.
Qed.

Lemma crashed_note (client message : pystr) (acts : list action) :
  crashed (note client message :: acts) = crashed acts.
Proof using Hcls.
  destruct Hcls as (_ & _ & Hnote). destruct (Hnote client message) as [_ Hc].
  change (crashed ([note client message] ++ acts) = crashed acts).
  by rewrite crashed_app, Hc.
Qed.

End Class.

(** ** The two classes *)

Lemma MyHTTPRequestHandler_adds :
  class_adds MyHTTPRequestHandler cors_lines (λ c m, Log (printed_line c m)).
Proof.
  split; [|split].
  - intros self. cbn [end_headers MyHTTPRequestHandler].
    unfold MyHTTPRequestHandler_end_headers, base_end_headers, send_header.
    unfold has_headers.
    destruct (decide (request_version self = py "HTTP/0.9")) as [Hv|Hv].
    + by headers_off Hv.
    + headers_on Hv. unfold cors_lines, header_line. same_handler.
  - intros format args self. cbn [log_message MyHTTPRequestHandler].
    unfold MyHTTPRequestHandler_log_message. by destruct (percent format args).
  - done.
Qed.

Lemma SimpleHTTPRequestHandler_adds (L : inherited) :
  class_adds (SimpleHTTPRequestHandler L) []
    (λ c m, Err (stderr_text L c m)).
Proof.
  split; [|split].
  - intros self. cbn [end_headers SimpleHTTPRequestHandler].
    unfold base_end_headers, has_headers.
    destruct (decide (request_version self = py "HTTP/0.9")) as [Hv|Hv].
    + by headers_off Hv.
    + headers_on Hv. same_handler.
  - intros format args self. cbn [log_message SimpleHTTPRequestHandler].
    unfold base_log_message. by destruct (percent format args).
  - done.
Qed.

(** ** Reading the request line *)

Section Parse.

Variable L : inherited.
Variable cls : handler_class.
Variables (line : pystr) (h : head) (self : handler).

Lemma parse_request_none :
  parse_request L cls line [] h self
  = (false, set_request line (py "HTTP/0.9") None self).
Proof. reflexivity. Qed.

Lemma parse_request_one (w : pystr) :
  parse_request L cls line [w] h self
  = (false,
     send_error L cls 400
       (Some (py "Bad request syntax (" ++ repr L line ++ py ")")) None
       (set_request line (py "HTTP/0.9") None self)).
Proof. reflexivity. Qed.

Lemma parse_request_two (cmd path : pystr) :
  parse_request L cls line [cmd; path] h self
  = if bool_decide (cmd ≠ py "GET")
    then (false,
          send_error L cls 400
            (Some (py "Bad HTTP/0.9 request type (" ++ repr L cmd ++ py ")"))
            None (set_request line (py "HTTP/0.9") None self))
    else parse_headers L cls h
           (set_request line (py "HTTP/0.9") (Some cmd) self).
Proof. reflexivity. Qed.

Lemma parse_request_three (cmd path version : pystr) :
  parse_request L cls line [cmd; path; version] h self
  = match check_version L version with
    | Accepted =>
        parse_headers L cls h (set_request line version (Some cmd) self)
    | Malformed =>
        (false,
         send_error L cls 400
           (Some (py "Bad request version (" ++ repr L version ++ py ")")) None
           (set_request line (py "HTTP/0.9") None self))
    | TooNew base =>
        (false,
         send_error L cls 505
           (Some (py "Invalid HTTP version (" ++ base ++ py ")")) None
           (set_request line (py "HTTP/0.9") None self))
    end.
Proof.
  unfold parse_request. cbn [length last default from_option id].
  rewrite bool_decide_eq_true_2 by lia.
  by destruct (check_version L version).
Qed.

Lemma parse_request_more (w1 w2 w3 w4 : pystr) (ws : list pystr) :
  parse_request L cls line (w1 :: w2 :: w3 :: w4 :: ws) h self
  = let version := default [] (last (w4 :: ws)) in
    (false,
     match check_version L version with
     | Accepted =>
         send_error L cls 400
           (Some (py "Bad request syntax (" ++ repr L line ++ py ")")) None
           (set_request line version None self)
     | Malformed =>
         send_error L cls 400
           (Some (py "Bad request version (" ++ repr L version ++ py ")")) None
           (set_request line (py "HTTP/0.9") None self)
     | TooNew base =>
         send_error L cls 505
           (Some (py "Invalid HTTP version (" ++ base ++ py ")")) None
           (set_request line (py "HTTP/0.9") None self)
     end).
Proof.
  unfold parse_request.
  change (last (w1 :: w2 :: w3 :: w4 :: ws)) with (last (w4 :: ws)).
  rewrite bool_decide_eq_true_2 by (cbn [length]; lia).
  cbn zeta. by destruct (check_version L (default [] (last (w4 :: ws)))).
Qed.

End Parse.

(** ** What a handler does for a connection *)

Lemma writes_write (data : bytes) (acts : list action) :
  writes (Write data :: acts) = data :: writes acts.
Proof. reflexivity. Qed.

Lemma crashed_write (data : bytes) (acts : list action) :
  crashed (Write data :: acts) = crashed acts.
Proof. reflexivity. Qed.

Lemma answered_two (L : inherited) (line cmd path : pystr) (h : head) :
  answered_with_headers L (Line line [cmd; path] h) = false.
Proof.
  unfold answered_with_headers. by rewrite bool_decide_eq_false_2 by (cbn; lia).
Qed.

Lemma answered_three (L : inherited) (line cmd path version : pystr) (h : head) :
  answered_with_headers L (Line line [cmd; path; version] h)
  = match check_version L version with
    | Accepted => bool_decide (version ≠ py "HTTP/0.9")
    | _ => false
    end.
Proof.
  unfold answered_with_headers. cbn [length last default from_option id].
  by rewrite bool_decide_eq_true_2 by lia.
Qed.

Lemma answered_more (L : inherited) (line w1 w2 w3 w4 : pystr)
    (ws : list pystr) (h : head) :
  answered_with_headers L (Line line (w1 :: w2 :: w3 :: w4 :: ws) h)
  = match check_version L (default [] (last (w4 :: ws))) with
    | Accepted => bool_decide (default [] (last (w4 :: ws)) ≠ py "HTTP/0.9")
    | _ => false
    end.
Proof.
  unfold answered_with_headers.
  change (last (w1 :: w2 :: w3 :: w4 :: ws)) with (last (w4 :: ws)).
  by rewrite bool_decide_eq_true_2 by (cbn [length]; lia).
Qed.

Section Answers.

Variable L : inherited.
Variable cls : handler_class.
Variable extra : list bytes.
Variable note : pystr → pystr → action.
Hypothesis Hcls : class_adds cls extra note.
Variable directory : pystr.

(** The actions of a handler that starts from nothing are the ones it
    adds, when no exception is among them. *)
Ltac crash_free :=
  cbn [app];
  rewrite ?(crashed_note cls extra note Hcls), ?crashed_write, ?crashed_Write;
  reflexivity.

Ltac run_handler :=
  cbn [performed after set_request new_handler app client_address requestline
       command headers_buffer];
  rewrite until_crash_quiet by crash_free.

(** A request that reaches [do_GET] or [do_HEAD]. *)
Lemma handle_method (c : connection) :
  reaches_method L (sent c) = true →
  handle L cls directory c
  = match static_answer L directory (sent c) with
    | Answer code hs body =>
        note (client c) (request_logged (line_of (sent c)) code)
        :: (if answered_with_headers L (sent c)
            then [Write (concat (response_lines L code
                                   (reason_phrase L code None)
                                 ++ (header_line <$> hs) ++ extra ++ [crlf]))]
            else [])
           ++ (Write <$> body)
    | Refusal code message =>
        let body := error_body L code message (error_explain L code None) in
        note (client c) (error_logged code message)
        :: note (client c) (request_logged (line_of (sent c)) code)
        :: (if answered_with_headers L (sent c)
            then [Write (concat (response_lines L code message
                                 ++ error_headers body ++ extra ++ [crlf]))]
            else [])
           ++ (Write <$> error_sent body (command_of (sent c)))
    end.
Proof using Hcls.
  destruct c as [cl a]. cbn [sent client]. intros Hr.
  destruct a as [| |line words h]; try discriminate Hr.
  destruct words as [|cmd [|path [|version [|w ws]]]], h;
    cbn [reaches_method] in Hr; try discriminate Hr.
  - apply bool_decide_eq_true_1 in Hr. subst cmd.
    unfold handle, handle_one_request. cbn [sent client].
    rewrite parse_request_two.
    rewrite bool_decide_eq_false_2 by (intros Hne; by apply Hne).
    cbn [parse_headers command set_request].
    rewrite bool_decide_eq_true_2 by (by left).
    rewrite answered_two, (do_method_off L cls extra note Hcls) by reflexivity.
    destruct (static_answer L directory _) as [code hs body|code message].
    + by run_handler.
    + rewrite (send_error_off L cls extra note Hcls) by reflexivity. cbn zeta. by run_handler.
  - apply andb_true_iff in Hr as [Hcmd Hcv].
    unfold handle, handle_one_request. cbn [sent client].
    rewrite parse_request_three, answered_three.
    destruct (check_version L version); try discriminate Hcv.
    cbn [parse_headers command set_request]. rewrite Hcmd.
    destruct (decide (version = py "HTTP/0.9")) as [Hv|Hv].
    + rewrite (bool_decide_eq_false_2 _ (λ Hne, Hne Hv)).
      rewrite (do_method_off L cls extra note Hcls) by exact Hv.
      destruct (static_answer L directory _) as [code hs body|code message].
      * by run_handler.
      * rewrite (send_error_off L cls extra note Hcls) by exact Hv. cbn zeta. by run_handler.
    + rewrite (bool_decide_eq_true_2 _ Hv).
      rewrite (do_method_on L cls extra note Hcls) by exact Hv.
      destruct (static_answer L directory _) as [code hs body|code message].
      * by run_handler.
      * rewrite (send_error_on L cls extra note Hcls) by exact Hv. cbn zeta. by run_handler.
Qed.

End Answers.

(** Whatever arrives, the handler of a class is not ended by an
    exception, and what it writes is a header block, when the request is
    answered with one, and then a body; the class decides the last lines
    of the block and nothing else. *)
Lemma handle_shape (L : inherited) (directory : pystr) (c : connection) :
  ∃ code message others body,
    ∀ cls extra note, class_adds cls extra note →
      crashed (handle L cls directory c) = false
      ∧ writes (handle L cls directory c)
        = (if answered_with_headers L (sent c)
           then [concat (response_lines L code message ++ others ++ extra
                         ++ [crlf])]
           else [])
          ++ body.
Proof.
  assert (Herror_on : ∀ code message explain self,
    request_version self ≠ py "HTTP/0.9" →
    performed self = [] → headers_buffer self = [] →
    ∃ code' message' others body,
      ∀ cls extra note, class_adds cls extra note →
        crashed (until_crash (performed
                   (send_error L cls code message explain self))) = false
        ∧ writes (until_crash (performed
                    (send_error L cls code message explain self)))
          = [concat (response_lines L code' message' ++ others ++ extra
                     ++ [crlf])] ++ body).
  { intros code message explain self Hv Hp Hb.
    eexists code, _, _, _. intros cls extra note Hcls.
    rewrite (send_error_on L cls extra note Hcls) by exact Hv.
    cbn zeta. cbn [performed after]. rewrite Hp, Hb. cbn [app].
    rewrite until_crash_quiet;
      rewrite ?(crashed_note cls extra note Hcls), ?crashed_write,
        ?crashed_Write, ?(writes_note cls extra note Hcls), ?writes_write,
        ?writes_Write; try reflexivity.
    split; reflexivity. }
  assert (Herror_off : ∀ code message explain self,
    request_version self = py "HTTP/0.9" →
    performed self = [] →
    ∃ body,
      ∀ cls extra note, class_adds cls extra note →
        crashed (until_crash (performed
                   (send_error L cls code message explain self))) = false
        ∧ writes (until_crash (performed
                    (send_error L cls code message explain self)))
          = body).
  { intros code message explain self Hv Hp.
    eexists. intros cls extra note Hcls.
    rewrite (send_error_off L cls extra note Hcls) by exact Hv.
    cbn zeta. cbn [performed after]. rewrite Hp. cbn [app].
    rewrite until_crash_quiet;
      rewrite ?(crashed_note cls extra note Hcls), ?crashed_write,
        ?crashed_Write, ?(writes_note cls extra note Hcls), ?writes_write,
        ?writes_Write; try reflexivity.
    split; reflexivity. }
  assert (Hon : ∀ a' code message explain self,
    answered_with_headers L a' = true →
    request_version self ≠ py "HTTP/0.9" →
    performed self = [] → headers_buffer self = [] →
    ∃ code' message' others body,
      ∀ cls extra note, class_adds cls extra note →
        crashed (until_crash (performed
                   (send_error L cls code message explain self))) = false
        ∧ writes (until_crash (performed
                    (send_error L cls code message explain self)))
          = (if answered_with_headers L a'
             then [concat (response_lines L code' message' ++ others ++ extra
                           ++ [crlf])]
             else []) ++ body).
  { intros a' code message explain self -> Hv Hp Hb.
    by apply Herror_on. }
  assert (Hoff : ∀ a' code message explain self,
    answered_with_headers L a' = false →
    request_version self = py "HTTP/0.9" →
    performed self = [] →
    ∃ (code' : Z) (message' : pystr) (others : list bytes) body,
      ∀ cls extra note, class_adds cls extra note →
        crashed (until_crash (performed
                   (send_error L cls code message explain self))) = false
        ∧ writes (until_crash (performed
                    (send_error L cls code message explain self)))
          = (if answered_with_headers L a'
             then [concat (response_lines L code' message' ++ others ++ extra
                           ++ [crlf])]
             else []) ++ body).
  { intros a' code message explain self -> Hv Hp.
    destruct (Herror_off code message explain self Hv Hp) as [body Hbody].
    by exists 0%Z, [], [], body. }
  clear Herror_on Herror_off.
  destruct (reaches_method L (sent c)) eqn:Hr.
  { destruct (static_answer L directory (sent c))
      as [code hs body|code message] eqn:Hs.
    - exists code, (reason_phrase L code None), (header_line <$> hs), body.
      intros cls extra note Hcls.
      rewrite (handle_method L cls extra note Hcls) by exact Hr. rewrite Hs.
      rewrite (writes_note cls extra note Hcls),
        (crashed_note cls extra note Hcls), writes_app, crashed_app,
        writes_Write, crashed_Write.
      by destruct (answered_with_headers L (sent c)).
    - eexists code, message, _, _.
      intros cls extra note Hcls.
      rewrite (handle_method L cls extra note Hcls) by exact Hr. rewrite Hs.
      cbn zeta.
      rewrite !(writes_note cls extra note Hcls),
        !(crashed_note cls extra note Hcls), writes_app, crashed_app,
        writes_Write, crashed_Write.
      by destruct (answered_with_headers L (sent c)). }
  destruct c as [cl a]. cbn [sent client] in *. unfold handle. cbn [sent client].
  destruct a as [| |line words h].
  - exists 0%Z, [], [], []. by intros cls extra note Hcls.
  - unfold handle_one_request. by apply (Hon LongLine).
  - unfold handle_one_request.
    destruct words as [|cmd [|path [|version [|w ws]]]].
    + exists 0%Z, [], [], []. by intros cls extra note Hcls.
    + setoid_rewrite parse_request_one. by apply Hoff.
    + setoid_rewrite parse_request_two. cbn [reaches_method] in Hr.
      destruct (decide (cmd = py "GET")) as [->|Hcmd].
      * rewrite (bool_decide_eq_false_2 (py "GET" ≠ py "GET"))
          by (intros Hne; by apply Hne).
        destruct h; [by rewrite bool_decide_eq_true_2 in Hr | |];
          cbn [parse_headers]; (apply Hoff; [apply answered_two|done..]).
      * rewrite (bool_decide_eq_true_2 _ Hcmd).
        apply Hoff; [apply answered_two|done..].
    + setoid_rewrite parse_request_three.
      pose proof (answered_three L line cmd path version h) as Ha.
      cbn [reaches_method] in Hr.
      destruct (check_version L version) as [| |base];
        [|by apply Hoff..].
      assert (Hleaf : ∀ code message explain,
        ∃ code' message' others body,
          ∀ cls extra note, class_adds cls extra note →
            crashed (until_crash (performed
              (send_error L cls code message explain
                 (set_request line version (Some cmd) (new_handler cl)))))
            = false
            ∧ writes (until_crash (performed
                (send_error L cls code message explain
                   (set_request line version (Some cmd) (new_handler cl)))))
              = (if answered_with_headers L (Line line [cmd; path; version] h)
                 then [concat (response_lines L code' message' ++ others
                               ++ extra ++ [crlf])]
                 else []) ++ body).
      { intros code message explain.
        destruct (decide (version = py "HTTP/0.9")) as [Hv|Hv].
        - apply Hoff; [|done..].
          by rewrite Ha, (bool_decide_eq_false_2 _ (λ Hne, Hne Hv)).
        - apply Hon; [|done..].
          by rewrite Ha, (bool_decide_eq_true_2 _ Hv). }
      destruct h; cbn [parse_headers]; [|by apply Hleaf..].
      cbn [command set_request].
      destruct (bool_decide (cmd ∈ [py "GET"; py "HEAD"])); [discriminate Hr|].
      apply Hleaf.
    + setoid_rewrite parse_request_more. cbn zeta.
      pose proof (answered_more L line cmd path version w ws h) as Ha.
      destruct (check_version L (default [] (last (w :: ws)))) as [| |base];
        [|by apply Hoff..].
      destruct (decide (default [] (last (w :: ws)) = py "HTTP/0.9")) as [Hv|Hv].
      * apply Hoff; [|done..].
        by rewrite Ha, (bool_decide_eq_false_2 _ (λ Hne, Hne Hv)).
      * apply Hon; [|done..].
        by rewrite Ha, (bool_decide_eq_true_2 _ Hv).
Qed.

(** The handler of the script is never ended by an exception: the two
    formats the library gives to [log_message] fit their arguments. *)
Lemma handle_complete (L : inherited) (directory : pystr) (c : connection) :
  crashed (handle L MyHTTPRequestHandler directory c) = false.
Proof.
  destruct (handle_shape L directory c) as (code & message & others & body & H).
  by destruct (H _ _ _ MyHTTPRequestHandler_adds).
Qed.

(** An interrupted handler has sent a prefix of what it would have
    sent. *)
Lemma interrupted_prefix (k n : nat) (acts : list action) :
  concat (writes (interrupted k n acts)) `prefix_of` concat (writes acts).
Proof.
  unfold interrupted. rewrite <- (take_drop k acts) at 3.
  rewrite !writes_app, !concat_app. apply prefix_app.
  destruct (acts !! k) as [a|] eqn:Hk.
  - rewrite (drop_S acts a k Hk).
    destruct a as [line|text|data|]; try apply prefix_nil.
    destruct n as [|n]; [apply prefix_nil|].
    cbn [writes omap list_omap concat]. rewrite app_nil_r.
    exists (drop (S n) data ++ concat (writes (drop (S k) acts))).
    fold (writes (drop (S k) acts)).
    by rewrite app_assoc, take_drop.
  - apply prefix_nil.
Qed.

(** ** The listening socket *)

(** The server object that [socketserver.TCPServer(("", PORT), ...)]
    gives when the port is free. *)
Lemma new_server_free (p : process) :
  PORT ∉ ports_in_use p →
  new_server TCPServer ([], PORT) MyHTTPRequestHandler p
  = inr serving_server.
Proof.
  intros Hfree. unfold new_server, server_bind.
  cbn [server_address snd TCPServer allow_reuse_address allow_reuse_port].
  by rewrite bool_decide_eq_false_2.
Qed.

(** When the port is taken, the constructor raises and nothing listens. *)
Lemma new_server_busy (p : process) :
  PORT ∈ ports_in_use p →
  new_server TCPServer ([], PORT) MyHTTPRequestHandler p
  = inl (OSError 98 (py "Address already in use")).
Proof.
  intros Hbusy. unfold new_server, server_bind.
  cbn [server_address snd TCPServer allow_reuse_address allow_reuse_port].
  by rewrite bool_decide_eq_true_2.
Qed.

(** A server of class [HTTPServer] would have asked for address reuse. *)
Lemma http_server_class_reuses_address (p : process) :
  PORT ∉ ports_in_use p →
  ∃ httpd, new_server HTTPServer ([], PORT) MyHTTPRequestHandler p = inr httpd
           ∧ reuse_addr (sock httpd) = true.
Proof.
  intros Hfree. unfold new_server, server_bind.
  cbn [server_address snd HTTPServer allow_reuse_address allow_reuse_port].
  rewrite bool_decide_eq_false_2 by done. by eexists.
Qed.

(** ** The serving loop *)

Lemma after_serving_nil (p : process) : after_serving [] [] p = p.
Proof. destruct p. unfold after_serving. cbn. by rewrite !app_nil_r. Qed.

Lemma after_serving_app (l1 l2 : list pystr) (e1 e2 : list exchange)
    (p : process) :
  after_serving l2 e2 (after_serving l1 e1 p)
  = after_serving (l1 ++ l2) (e1 ++ e2) p.
Proof. unfold after_serving. cbn. by rewrite <- !app_assoc. Qed.

Lemma print_all_run (lines : list pystr) (p : process) :
  print_all lines p = after_serving lines [] p.
Proof.
  unfold print_all. revert p. induction lines as [|l lines IH]; intros p.
  - by rewrite after_serving_nil.
  - cbn [foldl]. rewrite IH. unfold print, after_serving. cbn.
    by rewrite <- !app_assoc.
Qed.





(** The exchanges are those of the accepted connections, in order. *)
Lemma exchanges_of_accepted (L : inherited) (directory : pystr)
    (polls : list poll) :
  (λ e, (ex_connection e, ex_complete e)) <$> exchanges_of L directory polls
  = accepted polls.
Proof.
  induction polls as [|x polls IH]; [done|].
  destruct x as [|c [[k n]|]|]; cbn; by rewrite ?IH.
Qed.


(** A connection handled to the end has all the writes of its handler;
    the one the interrupt cuts has a prefix of them. *)
Lemma exchanges_of_answers (L : inherited) (directory : pystr)
    (polls : list poll) :
  Forall (λ e, if ex_complete e
               then ex_sent e = writes (handle L MyHTTPRequestHandler directory
                                          (ex_connection e))
               else concat (ex_sent e)
                    `prefix_of` concat (writes (handle L MyHTTPRequestHandler
                                                  directory (ex_connection e))))
    (exchanges_of L directory polls).
Proof.
  induction polls as [|x polls IH]; [constructor|].
  destruct x as [|c [[k n]|]|]; cbn [exchanges_of]; [done| |by constructor|done].
  constructor; [|done]. apply interrupted_prefix.
Qed.

Section Loop.

Variable L : inherited.
Variable httpd : server.
Hypothesis Hclass : RequestHandlerClass httpd = MyHTTPRequestHandler.
Hypothesis Hrun : shutdown_request httpd = false.

(** The loop goes on until the first interrupt, which leaves it as
    [KeyboardInterrupt]; the polls after it are never looked at. *)
Lemma serve_loop_run (polls : list poll) (p : process) :
  serve_loop L polls httpd p
  = (if existsb interrupts polls then Raised KeyboardInterrupt else Waiting,
     after_serving (lines_of L (cwd p) polls) (exchanges_of L (cwd p) polls) p).
Proof using Hclass Hrun.
  revert p. induction polls as [|x polls IH]; intros p.
  - cbn. by rewrite Hrun, after_serving_nil.
  - cbn [serve_loop]. rewrite Hrun. destruct x as [|c [[k n]|]|].
    + apply IH.
    + by rewrite Hclass.
    + rewrite IH, Hclass, handle_complete. cbn [existsb interrupts orb negb].
      f_equal. unfold record_exchange, after_serving. cbn.
      by rewrite <- !app_assoc.
    + cbn. by rewrite after_serving_nil.
Qed.

End Loop.

(** ** [start_server] *)

Section Start.

Variable L : inherited.
Variable p : process.
Hypothesis Hfree : PORT ∉ ports_in_use p.

(** In the serving loop: without an interrupt the call does not return,
    it waits for the next connection, the socket open; at the first
    interrupt it prints its last line, shuts the server down (the event
    was set on the way out of [serve_forever], so [shutdown] does not
    wait), closes the socket and returns. *)
Lemma start_server_serve (polls : list poll) :
  start_server L (Serve polls) p
  = if existsb interrupts polls
    then (Done, Some stopped_server,
          after_serving (banner ++ lines_of L (cwd p) polls ++ [stop_line])
            (exchanges_of L (cwd p) polls) p)
    else (Waiting, Some serving_server,
          after_serving (banner ++ lines_of L (cwd p) polls)
            (exchanges_of L (cwd p) polls) p).
Proof using Hfree.
  unfold start_server. rewrite new_server_free by done.
  unfold serve_until_interrupt, serve_forever.
  change (set_flags (shutdown_request serving_server) false serving_server)
    with serving_server.
  rewrite (serve_loop_run L serving_server eq_refl eq_refl), print_all_run.
  rewrite after_serving_app. cbn [cwd after_serving app].
  destruct (existsb interrupts polls).
  - cbn [shutdown set_flags is_shut_down]. do 2 f_equal.
    unfold print, after_serving, stop_line.
    cbn [cwd console ports_in_use exchanges]. by rewrite <- !app_assoc.
  - reflexivity.
Qed.

(** While the first lines are printed, the interrupt leaves
    [start_server]: the [try] has not been entered.  The [with] block
    closes the socket on the way. *)
Lemma start_server_banner (j : nat) :
  start_server L (BannerInterrupt j) p
  = (Raised KeyboardInterrupt, Some closed_server,
     after_serving (take j banner) [] p).
Proof using Hfree.
  unfold start_server. rewrite new_server_free by done.
  by rewrite print_all_run.
Qed.

(** On entry of [serve_forever] the interrupt is caught, but the event
    that [shutdown] waits for is set only at the end of the loop, which
    has not started: the call never returns. *)
Lemma start_server_entry :
  start_server L EntryInterrupt p
  = (Deadlock, Some blocked_server,
     after_serving (banner ++ [stop_line]) [] p).
Proof using Hfree.
  unfold start_server. rewrite new_server_free by done.
  unfold serve_until_interrupt, serve_forever. rewrite print_all_run.
  cbn [shutdown set_flags is_shut_down serving_server server_with
       shutdown_request].
  do 2 f_equal. unfold print, after_serving, stop_line.
  cbn [cwd console ports_in_use exchanges]. by rewrite <- !app_assoc.
Qed.

End Start.

End DevServerProofs.
(* ===================================================================== *)
(** * The specification of the development server *)
(* ===================================================================== *)

Module DevServerSpec.
Import PyStr DevServer DevServerProofs.

(** A request line in the form of HTTP/0.9, [GET] and a path, and a
    request for a version of HTTP that the library refuses. *)
Lemma simple_request_writes :
  writes (handle sample_library MyHTTPRequestHandler (py "/srv")
            (get_simple (py "/index.html")))
  = [py "<html"].
Proof.
  rewrite (handle_method _ _ _ _ MyHTTPRequestHandler_adds) by reflexivity.
  reflexivity.
Qed.

(** C7, as stated, fails: a request line without a protocol version,
    [GET /index.html], for a file that exists is answered with the bytes
    of the file alone, and a request for HTTP/2.0 with the error page
    alone: there is no header section, so none of the three CORS headers
    is sent. *)
Lemma response_without_cors_headers :
  writes (handle sample_library MyHTTPRequestHandler (py "/srv")
            (get_simple (py "/index.html")))
  = [py "<html"]
  ∧ writes (handle sample_library MyHTTPRequestHandler (py "/srv")
              (Connection (py "127.0.0.1")
                 (Line (py "GET /index.html HTTP/2.0")
                       [py "GET"; py "/index.html"; py "HTTP/2.0"] HeadOk)))
    = [py "<h1>505 Invalid HTTP version (2.0)</h1>"].
Proof.
  split; [exact simple_request_writes|].
  unfold handle, handle_one_request. cbn [sent client].
  rewrite parse_request_three.
  change (check_version sample_library (py "HTTP/2.0")) with (TooNew (py "2.0")).
  rewrite (send_error_off _ _ _ _ MyHTTPRequestHandler_adds) by reflexivity.
  reflexivity.
Qed.

(** C7, as the code has it.  Every response with a status line and a
    header section (the answer to a request line of three words or more
    whose last is a version the library accepts, other than the string
    [HTTP/0.9], or to an over-long first line) ends its header block with
    the three CORS header lines, right before the blank line, whatever
    the method and the status.  For a request that reaches [do_GET] or
    [do_HEAD], the status and the headers before them, and the body, are
    those the inherited file-serving logic chooses. *)
Theorem cors_headers_on_every_response (L : inherited) (directory : pystr)
    (c : connection) :
  answered_with_headers L (sent c) = true →
  ∃ code message others body,
    writes (handle L MyHTTPRequestHandler directory c)
    = [concat ([ status_line code message;
                 header_line (py "Server", version_string L);
                 header_line (py "Date", date_time_string L) ]
               ++ others ++ cors_lines ++ [crlf])]
      ++ body
    ∧ (reaches_method L (sent c) = true →
       match static_answer L directory (sent c) with
       | Answer code' hs body' =>
           code = code' ∧ message = reason_phrase L code' None
           ∧ others = header_line <$> hs ∧ body = body'
       | Refusal code' message' => code = code' ∧ message = message'
       end).
Proof.
  intros Ha. destruct (reaches_method L (sent c)) eqn:Hr.
  - rewrite (handle_method _ _ _ _ MyHTTPRequestHandler_adds) by exact Hr.
    rewrite Ha.
    destruct (static_answer L directory (sent c)) as [code hs body|code message].
    + exists code, (reason_phrase L code None), (header_line <$> hs), body.
      split; [|done]. cbn [writes omap list_omap app].
      fold (writes (Write <$> body)). by rewrite writes_Write.
    + eexists code, message, _, _. split; [|done].
      cbn zeta. cbn [writes omap list_omap app].
      match goal with |- context [omap _ (Write <$> ?l)] =>
        fold (writes (Write <$> l)) end.
      rewrite writes_Write. reflexivity.
  - destruct (handle_shape L directory c) as (code & message & others & body & H).
    destruct (H _ _ _ MyHTTPRequestHandler_adds) as [_ Hw].
    rewrite Ha in Hw. by exists code, message, others, body.
Qed.

Lemma cors_headers_on_every_response_witness :
  (∃ code message others body,
     writes (handle sample_library MyHTTPRequestHandler (py "/srv")
               (get (py "/index.html")))
     = [concat ([ status_line code message;
                  header_line (py "Server", py "SimpleHTTP/0.6 Python/3.11.2");
                  header_line (py "Date", py "Tue, 03 Nov 2026 12:00:00 GMT") ]
                ++ others ++ cors_lines ++ [crlf])]
       ++ body
     ∧ code = 200%Z ∧ message = py "OK" ∧ body = [py "<html"])
  ∧ (∃ code message others body,
       writes (handle sample_library MyHTTPRequestHandler (py "/srv")
                 (get (py "/missing")))
       = [concat ([ status_line code message;
                    header_line (py "Server", py "SimpleHTTP/0.6 Python/3.11.2");
                    header_line (py "Date", py "Tue, 03 Nov 2026 12:00:00 GMT") ]
                  ++ others ++ cors_lines ++ [crlf])]
         ++ body
       ∧ code = 404%Z ∧ message = py "File not found").
Proof.
  split.
  - destruct (cors_headers_on_every_response sample_library (py "/srv")
                (get (py "/index.html")) eq_refl)
      as (code & message & others & body & Hw & Hm).
    destruct (Hm eq_refl) as (-> & -> & _ & ->).
    exists 200%Z, (py "OK"), others, [py "<html"].
    split; [exact Hw|]. split; [reflexivity|]. split; reflexivity.
  - destruct (cors_headers_on_every_response sample_library (py "/srv")
                (get (py "/missing")) eq_refl)
      as (code & message & others & body & Hw & Hm).
    destruct (Hm eq_refl) as (-> & ->).
    exists 404%Z, (py "File not found"), others, body.
    split; [exact Hw|]. split; reflexivity.
Defined.

(** The script with a free port, whenever the interrupt comes. *)
Lemma run_script_free (L : inherited) (script_dir : pystr) (s : schedule)
    (p : process) :
  PORT ∉ ports_in_use p →
  ∃ o request event is_closed lines,
    run_script L script_dir s p
    = (o, Some (server_with request event is_closed),
       after_serving lines (exchanges_of L script_dir (polls_of s))
         (chdir script_dir p)).
Proof.
  intros Hfree. unfold run_script.
  assert (Hfree' : PORT ∉ ports_in_use (chdir script_dir p)) by exact Hfree.
  destruct s as [j| |polls].
  - rewrite start_server_banner by exact Hfree'. by eexists _, _, _, _, _.
  - rewrite start_server_entry by exact Hfree'. by eexists _, _, _, _, _.
  - rewrite start_server_serve by exact Hfree'.
    destruct (existsb interrupts polls); by eexists _, _, _, _, _.
Qed.

(** C8, as the code has it.  Run from the file in [script_dir] with port
    8000 free, the script has a TCP socket bound to port 8000 on all
    interfaces and listening, created with the defaults of
    [socketserver.TCPServer]: address reuse is not enabled.  Its handler
    class is [MyHTTPRequestHandler] and its working directory
    [script_dir]: the connections it accepts are those that come up to
    the interrupt, each handled to its end has all the writes of a
    [MyHTTPRequestHandler] serving [script_dir], and where the request
    reaches [do_GET] or [do_HEAD] these are the header block and the body
    that the file-serving logic gives for [script_dir]. *)
Theorem server_binds_port_without_reuse (L : inherited) (script_dir : pystr)
    (s : schedule) (p : process) :
  PORT ∉ ports_in_use p →
  ∃ o httpd p',
    run_script L script_dir s p = (o, Some httpd, p')
    ∧ bound (sock httpd) = Some ([], 8000%Z)
    ∧ server_address httpd = (py "0.0.0.0", 8000%Z)
    ∧ backlog (sock httpd) = Some 5%Z
    ∧ reuse_addr (sock httpd) = false
    ∧ reuse_port (sock httpd) = false
    ∧ RequestHandlerClass httpd = MyHTTPRequestHandler
    ∧ cwd p' = script_dir
    ∧ ∃ new,
        exchanges p' = exchanges p ++ new
        ∧ (λ e, (ex_connection e, ex_complete e)) <$> new = accepted (polls_of s)
        ∧ Forall (λ e,
            ex_complete e = true →
            ex_sent e = writes (handle L MyHTTPRequestHandler script_dir
                                  (ex_connection e))
            ∧ (reaches_method L (sent (ex_connection e)) = true →
               ex_sent e
               = (if answered_with_headers L (sent (ex_connection e))
                  then [header_block L script_dir (sent (ex_connection e))
                          cors_lines]
                  else [])
                 ++ body_only L script_dir (sent (ex_connection e)))) new.
Proof.
  intros Hfree.
  destruct (run_script_free L script_dir s p Hfree)
    as (o & request & event & is_closed & lines & Hrun).
  eexists o, _, _. split; [exact Hrun|].
  do 7 (split; [reflexivity|]).
  exists (exchanges_of L script_dir (polls_of s)).
  split; [reflexivity|]. split; [apply exchanges_of_accepted|].
  eapply Forall_impl; [apply exchanges_of_answers|].
  intros e He Hc. cbv beta in He. rewrite Hc in He. split; [exact He|].
  intros Hr. rewrite He.
  rewrite (handle_method _ _ _ _ MyHTTPRequestHandler_adds) by exact Hr.
  unfold header_block, body_only.
  destruct (static_answer L script_dir (sent (ex_connection e)));
    cbn zeta; cbn [writes omap list_omap]; fold writes;
    rewrite writes_app, writes_Write;
    by destruct (answered_with_headers L (sent (ex_connection e))).
Qed.

Lemma server_binds_port_without_reuse_witness :
  ∃ o httpd p',
    run_script sample_library (py "/srv")
      (Serve [Incoming (get (py "/index.html")) None]) fresh_process
    = (o, Some httpd, p')
    ∧ bound (sock httpd) = Some ([], 8000%Z)
    ∧ reuse_addr (sock httpd) = false
    ∧ cwd p' = py "/srv"
    ∧ ∃ new, exchanges p' = new
             ∧ (λ e, (ex_connection e, ex_complete e)) <$> new
               = [(get (py "/index.html"), true)].
Proof.
  destruct (server_binds_port_without_reuse sample_library (py "/srv")
              (Serve [Incoming (get (py "/index.html")) None]) fresh_process)
    as (o & httpd & p' & Hrun & Hbound & _ & _ & Hreuse & _ & _ & Hcwd
        & new & Hnew & Hacc & _).
  - apply not_elem_of_empty.
  - exists o, httpd, p'. do 4 (split; [assumption|]).
    exists new. split; [exact Hnew|exact Hacc].
Defined.

(** C8, as stated, fails: the socket the script listens on has no address
    reuse. *)
Lemma listening_socket_is_not_reusable :
  ∃ httpd p',
    run_script sample_library (py "/srv") (Serve []) fresh_process
    = (Waiting, Some httpd, p')
    ∧ bound (sock httpd) = Some ([], 8000%Z)
    ∧ backlog (sock httpd) = Some 5%Z
    ∧ reuse_addr (sock httpd) ≠ true.
Proof.
  eexists _, _. split.
  - unfold run_script. rewrite start_server_serve by apply not_elem_of_empty.
    reflexivity.
  - by repeat split.
Qed.




End DevServerSpec.
(* ===================================================================== *)
(** * Further properties of the development server *)
(* ===================================================================== *)

Module DevServerMore.
Import PyStr DevServer DevServerProofs.

(** X13.  The override of [end_headers] changes nothing but the three
    lines: for a request that is answered with a header section, what a
    [MyHTTPRequestHandler] writes is what the base class would write
    (same status line, same headers in the same order, same body) with
    the three CORS lines put between the last inherited header and the
    blank line. *)
Theorem override_only_adds_cors_lines (L : inherited) (directory : pystr)
    (c : connection) :
  answered_with_headers L (sent c) = true →
  ∃ lines body,
    writes (handle L (SimpleHTTPRequestHandler L) directory c)
    = [concat (lines ++ [crlf])] ++ body
    ∧ writes (handle L MyHTTPRequestHandler directory c)
      = [concat (lines ++ cors_lines ++ [crlf])] ++ body.
Proof.
  intros Ha.
  destruct (handle_shape L directory c) as (code & message & others & body & H).
  destruct (H _ _ _ MyHTTPRequestHandler_adds) as [_ Hmy].
  destruct (H _ _ _ (SimpleHTTPRequestHandler_adds L)) as [_ Hbase].
  rewrite Ha in Hmy, Hbase.
  exists (response_lines L code message ++ others), body.
  rewrite Hmy, Hbase. by rewrite <- !app_assoc.
Qed.

Lemma override_only_adds_cors_lines_witness :
  ∃ lines body,
    writes (handle sample_library (SimpleHTTPRequestHandler sample_library)
              (py "/srv") (get (py "/missing")))
    = [concat (lines ++ [crlf])] ++ body
    ∧ writes (handle sample_library MyHTTPRequestHandler (py "/srv")
                (get (py "/missing")))
      = [concat (lines ++ cors_lines ++ [crlf])] ++ body.
Proof.
  apply (override_only_adds_cors_lines sample_library (py "/srv")
           (get (py "/missing"))).
  reflexivity.
Defined.

(** X14.  A request that is answered without a header section (a request
    line without a protocol version, or with the version [HTTP/0.9], or
    with a version the library refuses) gets no status line and no
    header, the three CORS headers included: the override makes no
    difference there.  When such a request reaches [do_GET] or [do_HEAD],
    what is written is the body alone. *)
Theorem versionless_request_gets_body_only (L : inherited) (directory : pystr)
    (c : connection) :
  answered_with_headers L (sent c) = false →
  writes (handle L MyHTTPRequestHandler directory c)
  = writes (handle L (SimpleHTTPRequestHandler L) directory c)
  ∧ (reaches_method L (sent c) = true →
     writes (handle L MyHTTPRequestHandler directory c)
     = body_only L directory (sent c)).
Proof.
  intros Ha. split.
  - destruct (handle_shape L directory c) as (code & message & others & body & H).
    destruct (H _ _ _ MyHTTPRequestHandler_adds) as [_ Hmy].
    destruct (H _ _ _ (SimpleHTTPRequestHandler_adds L)) as [_ Hbase].
    rewrite Ha in Hmy, Hbase. by rewrite Hmy, Hbase.
  - intros Hr.
    rewrite (handle_method _ _ _ _ MyHTTPRequestHandler_adds) by exact Hr.
    rewrite Ha. unfold body_only.
    destruct (static_answer L directory (sent c));
      cbn zeta; cbn [writes omap list_omap app]; fold writes;
      by rewrite writes_Write.
Qed.

Lemma versionless_request_gets_body_only_witness :
  writes (handle sample_library MyHTTPRequestHandler (py "/srv")
            (get_simple (py "/index.html")))
  = [py "<html"].
Proof.
  rewrite (proj2 (versionless_request_gets_body_only sample_library (py "/srv")
                    (get_simple (py "/index.html")) eq_refl) eq_refl).
  reflexivity.
Defined.



(** X16.  When another program holds port 8000, the script stops at the
    constructor: the [OSError] of [bind] leaves [start_server] uncaught,
    nothing is printed, no server object exists and no connection is
    served; only the working directory has changed. *)
Theorem busy_port_aborts_startup (L : inherited) (script_dir : pystr)
    (s : schedule) (p : process) :
  PORT ∈ ports_in_use p →
  run_script L script_dir s p
  = (Raised (OSError 98 (py "Address already in use")), None,
     {| cwd := script_dir; console := console p;
        ports_in_use := ports_in_use p; exchanges := exchanges p |}).
Proof.
  intros Hbusy. unfold run_script, start_server.
  by rewrite new_server_busy.
Qed.

Lemma busy_port_aborts_startup_witness :
  run_script sample_library (py "/srv") (Serve [Sigint]) crowded_process
  = (Raised (OSError 98 (py "Address already in use")), None,
     {| cwd := py "/srv"; console := [];
        ports_in_use := {[ 8000%Z ]}; exchanges := [] |}).
Proof.
  apply (busy_port_aborts_startup sample_library (py "/srv") (Serve [Sigint])
           crowded_process).
  unfold crowded_process, PORT. cbn [ports_in_use].
  by apply elem_of_singleton_2.
Defined.




End DevServerMore.
